(** * tool_usage_hook.py: a shallow embedding and its properties

    The hook reads an event payload from standard input, looks up the first
    prompt of the session in [~/.claude/history.jsonl], builds a file name
    from it and appends one JSON line to that file.

    Python values are modelled by the type [json] (everything the hook
    handles comes out of [json.loads]), text by lists of Unicode code
    points, exceptions by an error monad, and the file system, the clock
    and the standard streams by an environment record and a trace of
    events.  The functions of Python's own library that the hook calls
    ([json.loads], [json.dumps], the Unicode tables behind [\w] and [\s],
    [str()]) are fields of the class [PyRuntime]. *)

From Stdlib Require Import String Ascii.
From Stdlib Require Import List ZArith NArith QArith Bool Lia Permutation.
Import ListNotations.
Local Close Scope Q_scope.
Local Open Scope list_scope.

(* ================================================================= *)
(** ** Text *)

(** A Python [str] is a sequence of Unicode code points. *)
Definition codepoint := N.
Definition pystr := list codepoint.

(** String literals of the source (all of them ASCII). *)
Definition lit (s : string) : pystr :=
  map N_of_ascii (list_ascii_of_string s).
Arguments lit s%_string.

Definition newline : codepoint := 10%N.

Fixpoint str_eqb (s t : pystr) : bool :=
  match s, t with
  | [], [] => true
  | c :: s', d :: t' => N.eqb c d && str_eqb s' t'
  | _, _ => false
  end.

(* ================================================================= *)
(** ** Numbers *)

(** The value of a Python number, as far as [<] and [==] can tell: [int],
    [bool] and finite [float] values are compared by their exact value (a
    rational), and a [float] can also be an infinity or NaN. *)
Inductive number : Type :=
| NaN
| NegInf
| Fin (q : Q)
| PosInf.

(** [x < y] on numbers: false as soon as one side is NaN. *)
Definition num_ltb (x y : number) : bool :=
  match x, y with
  | NaN, _ | _, NaN => false
  | NegInf, NegInf => false
  | NegInf, _ => true
  | _, NegInf => false
  | Fin p, Fin q => negb (Qle_bool q p)
  | Fin _, PosInf => true
  | PosInf, _ => false
  end.

(** [x == y] on numbers. *)
Definition num_eqb (x y : number) : bool :=
  match x, y with
  | NegInf, NegInf => true
  | PosInf, PosInf => true
  | Fin p, Fin q => Qeq_bool p q
  | _, _ => false
  end.

(* ================================================================= *)
(** ** Values *)

(** What [json.loads] returns: [None], [bool], [int], [float], [str],
    [list] and [dict].  A [dict] is the list of its items in insertion
    order; its keys are pairwise distinct. *)
#[local] Set Warnings "-register-all".
Inductive json : Type :=
| JNull
| JBool (b : bool)
| JInt (z : Z)
| JFloat (f : number)
| JStr (s : pystr)
| JArr (items : list json)
| JObj (fields : list (pystr * json)).

(** The number a value denotes in a comparison; [None] for a value that
    is not a number ([bool] is a subclass of [int]). *)
Definition as_number (v : json) : option number :=
  match v with
  | JBool b => Some (Fin (inject_Z (if b then 1 else 0)))
  | JInt z => Some (Fin (inject_Z z))
  | JFloat f => Some f
  | _ => None
  end.

(** Truth value of an object, as tested by [if x] and [not x]. *)
Definition truthy (v : json) : bool :=
  match v with
  | JNull => false
  | JBool b => b
  | JInt z => negb (Z.eqb z 0)
  | JFloat (Fin q) => negb (Qeq_bool q 0)
  | JFloat _ => true
  | JStr s => negb (Nat.eqb (length s) 0)
  | JArr l => negb (Nat.eqb (length l) 0)
  | JObj l => negb (Nat.eqb (length l) 0)
  end.

Fixpoint assoc {A : Type} (k : pystr) (l : list (pystr * A)) : option A :=
  match l with
  | [] => None
  | (k', v) :: l' => if str_eqb k k' then Some v else assoc k l'
  end.

(** The NaN of [json.loads]: the decoder hands out one and the same
    [float] object for every [NaN] it reads. *)
Definition is_nan (v : json) : bool :=
  match v with
  | JFloat NaN => true
  | _ => false
  end.

(** [a == b] on values.  Between the items of two lists or dicts Python
    tests identity before equality, so there (and only there) the NaN of
    the decoder equals itself. *)
Fixpoint py_eq (a b : json) {struct a} : bool :=
  match a, b with
  | JNull, JNull => true
  | JStr s, JStr t => str_eqb s t
  | JArr xs, JArr ys =>
      (fix items_eq (xs ys : list json) {struct xs} : bool :=
         match xs, ys with
         | [], [] => true
         | x :: xs', y :: ys' =>
             (is_nan x && is_nan y || py_eq x y) && items_eq xs' ys'
         | _, _ => false
         end) xs ys
  | JObj xs, JObj ys =>
      Nat.eqb (length xs) (length ys) &&
      (fix fields_eq (xs : list (pystr * json)) {struct xs} : bool :=
         match xs with
         | [] => true
         | (k, v) :: xs' =>
             match assoc k ys with
             | Some w => is_nan v && is_nan w || py_eq v w
             | None => false
             end && fields_eq xs'
         end) xs
  | _, _ =>
      match as_number a, as_number b with
      | Some x, Some y => num_eqb x y
      | _, _ => false
      end
  end.

(** Equality of two items of a list, as a comparison of lists takes it. *)
Definition item_eq (x y : json) : bool :=
  is_nan x && is_nan y || py_eq x y.

(* ================================================================= *)
(** ** Exceptions *)

(** The subclasses of [Exception] that occur. *)
Inductive exn : Type :=
| JSONDecodeError
| AttributeError
| TypeError
| OSError
| UnicodeDecodeError
| RecursionError.

Inductive result (A : Type) : Type :=
| Ok (a : A)
| Raise (e : exn).
Arguments Ok {A} a.
Arguments Raise {A} e.

Definition rbind {A B : Type} (r : result A) (k : A -> result B) : result B :=
  match r with
  | Ok a => k a
  | Raise e => Raise e
  end.

Declare Scope result_scope.
Delimit Scope result_scope with result.
Notation "x <- r ;; k" := (rbind r (fun x => k))
  (at level 61, r at next level, right associativity) : result_scope.

(** [d.get(key, default)]: only a [dict] has the method. *)
Definition dict_get (d : json) (key : pystr) (default : json) : result json :=
  match d with
  | JObj fields =>
      Ok (match assoc key fields with Some v => v | None => default end)
  | _ => Raise AttributeError
  end.

(* ================================================================= *)
(** ** The Python runtime *)

(** Library functions the hook calls and that are not part of it. *)
Class PyRuntime : Type := {
  (** [json.loads]: the parsed value, or the exception it raises. *)
  json_loads : pystr -> result json;
  (** [json.dumps]. *)
  json_dumps : json -> pystr;
  (** [str.isalnum] beyond ASCII, the Unicode part of the class [\w]. *)
  unicode_alnum : codepoint -> bool;
  (** [str.isspace] beyond ASCII, the Unicode part of the class [\s]. *)
  unicode_space : codepoint -> bool;
  (** [str(x)], as used by an f-string, for a value that is not a [str]. *)
  py_str : json -> pystr;
  (** [str(e)] for an exception. *)
  exn_str : exn -> pystr;
  (** What the interpreter prints for an exception nobody caught. *)
  traceback : exn -> pystr
}.

(* ================================================================= *)
(** ** The environment of one run *)

Record datetime : Type := {
  year : N; month : N; day : N;
  hour : N; minute : N; second : N; microsecond : N
}.

(** The file [~/.claude/history.jsonl] as the hook finds it. *)
Inductive history_source : Type :=
| HistMissing                         (* [os.path.exists] is false *)
| HistUnreadable (e : exn)            (* [open] raises *)
| HistLines (lines : list pystr).     (* the lines [for line in f] yields *)

Record env : Type := {
  stdin_text : pystr;                         (* what [sys.stdin] holds *)
  history_file : pystr;                       (* [expanduser] of the path *)
  history : history_source;
  clock : nat -> datetime;                    (* n-th [datetime.now()] *)
  cwd : result pystr;                         (* [os.getcwd()] *)
  makedirs_error : pystr -> option exn;       (* [os.makedirs] raising *)
  open_error : pystr -> option exn;           (* [open(p, 'a')] raising *)
  write_error : pystr -> pystr -> option exn  (* [f.write] raising *)
}.

(** What a run does to the outside world. *)
Inductive event : Type :=
| EvExists (path : pystr)
| EvOpenRead (path : pystr)
| EvMakedirs (path : pystr)
| EvOpenAppend (path : pystr)
| EvWrite (path text : pystr)
| EvStderr (text : pystr).

Record state : Type := {
  ticks : nat;            (* calls of [datetime.now()] so far *)
  trace : list event      (* events so far, oldest first *)
}.

(** How a computation ends: with a value, with an exception, or with
    [sys.exit(code)] ([SystemExit] is no subclass of [Exception], so no
    [except Exception] clause catches it). *)
Inductive outcome (A : Type) : Type :=
| Done (a : A)
| Raised (e : exn)
| Exited (code : Z).
Arguments Done {A} a.
Arguments Raised {A} e.
Arguments Exited {A} code.

Definition M (A : Type) : Type := state -> state * outcome A.

Definition ret {A : Type} (a : A) : M A := fun st => (st, Done a).

Definition bind {A B : Type} (m : M A) (k : A -> M B) : M B :=
  fun st =>
    match m st with
    | (st', Done a) => k a st'
    | (st', Raised e) => (st', Raised e)
    | (st', Exited c) => (st', Exited c)
    end.

Definition raise {A : Type} (e : exn) : M A := fun st => (st, Raised e).

Definition sys_exit {A : Type} (code : Z) : M A := fun st => (st, Exited code).

Definition lift {A : Type} (r : result A) : M A :=
  match r with
  | Ok a => ret a
  | Raise e => raise e
  end.

(** [try: m  except Exception as e: handler e]. *)
Definition try_except {A : Type} (m : M A) (handler : exn -> M A) : M A :=
  fun st =>
    match m st with
    | (st', Raised e) => handler e st'
    | r => r
    end.

Definition emit (ev : event) : M unit :=
  fun st => ({| ticks := ticks st; trace := trace st ++ [ev] |}, Done tt).

Definition datetime_now (E : env) : M datetime :=
  fun st => ({| ticks := S (ticks st); trace := trace st |},
             Done (clock E (ticks st))).

Declare Scope hook_scope.
Delimit Scope hook_scope with hook.
Notation "x <- m ;; k" := (bind m (fun x => k))
  (at level 61, m at next level, right associativity) : hook_scope.
Notation "m ;; k" := (bind m (fun _ => k))
  (at level 61, right associativity) : hook_scope.

(* ================================================================= *)
(** ** Ordering of values *)

Fixpoint str_ltb (s t : pystr) : bool :=
  match s, t with
  | [], [] => false
  | [], _ :: _ => true
  | _ :: _, [] => false
  | c :: s', d :: t' => N.ltb c d || (N.eqb c d && str_ltb s' t')
  end.

(** [a < b] on values: numbers among themselves, text with text and
    lists with lists; any other pairing raises [TypeError]. *)
Fixpoint py_lt (a b : json) {struct a} : result bool :=
  match a, b with
  | JStr s, JStr t => Ok (str_ltb s t)
  | JArr xs, JArr ys =>
      (fix items_lt (xs ys : list json) {struct xs} : result bool :=
         match xs, ys with
         | [], [] => Ok false
         | [], _ :: _ => Ok true
         | _ :: _, [] => Ok false
         | x :: xs', y :: ys' =>
             if item_eq x y then items_lt xs' ys' else py_lt x y
         end) xs ys
  | _, _ =>
      match as_number a, as_number b with
      | Some x, Some y => Ok (num_ltb x y)
      | _, _ => Raise TypeError
      end
  end.

(* ================================================================= *)
(** ** get_session_prompt (lines 7-33) *)

Section SessionLabeler.
Context {rt : PyRuntime}.

(** The two variables of the scan: [first_prompt] and [min_timestamp]. *)
Record scan_state : Type := {
  first_prompt : json;
  min_timestamp : json
}.

(** Lines 15-16. *)
Definition scan_init : scan_state :=
  {| first_prompt := JNull; min_timestamp := JFloat PosInf |}.

(** One turn of the loop, lines 21-29: the inner [try] turns a
    [JSONDecodeError] into [continue] and lets anything else through. *)
Definition scan_line (session_id : json) (st : scan_state) (line : pystr)
  : result scan_state :=
  let body :=
    (entry <- json_loads line ;;
     sid <- dict_get entry (lit "sessionId") JNull ;;
     if py_eq sid session_id then
       timestamp <- dict_get entry (lit "timestamp") (JInt 0) ;;
       less <- py_lt timestamp (min_timestamp st) ;;
       if (less : bool) then
         display <- dict_get entry (lit "display") (JStr []) ;;
         Ok {| first_prompt := display; min_timestamp := timestamp |}
       else Ok st
     else Ok st)%result in
  match body with
  | Raise JSONDecodeError => Ok st
  | r => r
  end.

(** The loop of line 20. *)
Fixpoint scan_lines (session_id : json) (st : scan_state)
  (lines : list pystr) : result scan_state :=
  match lines with
  | [] => Ok st
  | line :: rest =>
      (st' <- scan_line session_id st line ;;
       scan_lines session_id st' rest)%result
  end.

(** Line 12, [os.path.exists(history_file)]. *)
Definition path_exists_history (E : env) : M bool :=
  (emit (EvExists (history_file E)) ;;
   ret (match history E with HistMissing => false | _ => true end))%hook.

(** Line 19, [open(history_file, 'r')], and the lines read from it; opening
    a file that is not there raises [FileNotFoundError], an [OSError]. *)
Definition open_history (E : env) : M (list pystr) :=
  (emit (EvOpenRead (history_file E)) ;;
   match history E with
   | HistLines lines => ret lines
   | HistUnreadable e => raise e
   | HistMissing => raise OSError
   end)%hook.

Definition get_session_prompt (E : env) (session_id : json) : M json :=
  (found <- path_exists_history E ;;
   if negb found then ret JNull
   else
     try_except
       (lines <- open_history E ;;
        st <- lift (scan_lines session_id scan_init lines) ;;
        ret (first_prompt st))
       (fun _ => ret JNull))%hook.

(** *** Vocabulary for the statements *)

(** The fields of the record on [line], when the line parses to an object
    whose [sessionId] equals [session_id]. *)
Definition record_fields (session_id : json) (line : pystr)
  : option (list (pystr * json)) :=
  match json_loads line with
  | Ok (JObj fields) =>
      let sid := match assoc (lit "sessionId") fields with
                 | Some v => v | None => JNull end in
      if py_eq sid session_id then Some fields else None
  | _ => None
  end.

(** [entry.get("timestamp", 0)] and [entry.get("display", "")]. *)
Definition timestamp_of (fields : list (pystr * json)) : json :=
  match assoc (lit "timestamp") fields with Some v => v | None => JInt 0 end.

Definition display_of (fields : list (pystr * json)) : json :=
  match assoc (lit "display") fields with Some v => v | None => JStr [] end.

(** The timestamp of the matching record on [line], when it is a number. *)
Definition record_time (session_id : json) (line : pystr) : option number :=
  match record_fields session_id line with
  | Some fields => as_number (timestamp_of fields)
  | None => None
  end.

(** A number below the initial running minimum: not NaN, not [+inf]. *)
Definition below_infinity (t : number) : bool := num_ltb t PosInf.


(** A line that does not stop the scan: [json.loads] rejects it with
    [JSONDecodeError], or it parses to an object which, if it matches,
    carries a timestamp that is a number (any number: an infinity and
    NaN are numbers too). *)
Definition passable (session_id : json) (line : pystr) : Prop :=
  match json_loads line with
  | Raise e => e = JSONDecodeError
  | Ok (JObj fields) =>
      match record_fields session_id line with
      | Some _ => exists t, as_number (timestamp_of fields) = Some t
      | None => True
      end
  | Ok _ => False
  end.


End SessionLabeler.

(* ================================================================= *)
(** ** sanitize_filename (lines 35-47) *)

Section Sanitizer.
Context {rt : PyRuntime}.

Definition underscore : codepoint := 95%N.
Definition hyphen : codepoint := 45%N.

(** [A-Za-z0-9]. *)
Definition ascii_alnum (c : codepoint) : bool :=
  ((48 <=? c) && (c <=? 57) || (65 <=? c) && (c <=? 90) ||
   (97 <=? c) && (c <=? 122))%N.

(** The ASCII characters for which [str.isspace] holds: tab to carriage
    return, the four separators 0x1c-0x1f, and the space. *)
Definition ascii_space (c : codepoint) : bool :=
  ((9 <=? c) && (c <=? 13) || (28 <=? c) && (c <=? 31) || (c =? 32))%N.

(** [A-Za-z0-9_]. *)
Definition ascii_word (c : codepoint) : bool :=
  ascii_alnum c || (c =? underscore)%N.

(** The class [\w] of a [str] pattern: alphanumeric or underscore. *)
Definition is_word (c : codepoint) : bool :=
  if (c <? 128)%N then ascii_word c else unicode_alnum c.

(** The class [\s] of a [str] pattern. *)
Definition is_space (c : codepoint) : bool :=
  if (c <? 128)%N then ascii_space c else unicode_space c.

(** Line 43, [re.sub(r'[^\w\s-]', '', text)]. *)
Definition remove_special (text : pystr) : pystr :=
  filter (fun c => is_word c || is_space c || (c =? hyphen)%N) text.

(** The class [[-\s]] of line 44. *)
Definition is_separator (c : codepoint) : bool :=
  (c =? hyphen)%N || is_space c.

(** Line 44, [re.sub(r'[-\s]+', '_', clean_text)]: every maximal run of
    separators becomes one underscore.  [in_run] tells that the previous
    character was a separator, whose run has been replaced already. *)
Fixpoint collapse_runs (in_run : bool) (text : pystr) : pystr :=
  match text with
  | [] => []
  | c :: rest =>
      if is_separator c then
        if in_run then collapse_runs true rest
        else underscore :: collapse_runs true rest
      else c :: collapse_runs false rest
  end.

Fixpoint lstrip_underscores (text : pystr) : pystr :=
  match text with
  | c :: rest =>
      if (c =? underscore)%N then lstrip_underscores rest else text
  | [] => []
  end.

(** [.strip('_')]. *)
Definition strip_underscores (text : pystr) : pystr :=
  rev (lstrip_underscores (rev (lstrip_underscores text))).

Definition sanitize_filename (text : json) : result pystr :=
  if negb (truthy text) then Ok (lit "unknown_session")
  else
    match text with
    | JStr s =>
        let clean_text := remove_special s in
        let clean_text := strip_underscores (collapse_runs false clean_text) in
        Ok (firstn 50 clean_text)
    | _ => Raise TypeError   (* [re.sub] wants a string *)
    end.

(** No underscore in front. *)
Definition no_lead (text : pystr) : Prop :=
  match text with
  | c :: _ => (c =? underscore)%N = false
  | [] => True
  end.

(** Text that is clean already: made of [A-Za-z0-9_] only. *)
Definition clean_text (x : pystr) : bool := forallb ascii_word x.

(** What a sanitized name is made of: [A-Za-z0-9_], or an alphanumeric
    character from beyond ASCII. *)
Definition name_char (c : codepoint) : bool :=
  ascii_word c || (128 <=? c)%N && unicode_alnum c.

End Sanitizer.

(* ================================================================= *)
(** ** Formatting of dates and paths *)

Fixpoint digits_of_uint (u : Decimal.uint) : pystr :=
  match u with
  | Decimal.Nil => []
  | Decimal.D0 u => 48%N :: digits_of_uint u
  | Decimal.D1 u => 49%N :: digits_of_uint u
  | Decimal.D2 u => 50%N :: digits_of_uint u
  | Decimal.D3 u => 51%N :: digits_of_uint u
  | Decimal.D4 u => 52%N :: digits_of_uint u
  | Decimal.D5 u => 53%N :: digits_of_uint u
  | Decimal.D6 u => 54%N :: digits_of_uint u
  | Decimal.D7 u => 55%N :: digits_of_uint u
  | Decimal.D8 u => 56%N :: digits_of_uint u
  | Decimal.D9 u => 57%N :: digits_of_uint u
  end.

(** A natural number in decimal, without padding. *)
Definition decimal (n : N) : pystr := digits_of_uint (N.to_uint n).

(** Zero padding on the left up to [width] characters. *)
Definition zfill (width : nat) (s : pystr) : pystr :=
  repeat 48%N (width - length s) ++ s.

(** [strftime('%Y%m%d_%H%M%S')].  The fields [%m %d %H %M %S] are two
    digits wide; [%Y] is what the C library prints, which pads no year
    (all years from 1000 on have four digits anyway). *)
Definition strftime_stamp (d : datetime) : pystr :=
  decimal (year d) ++ zfill 2 (decimal (month d)) ++ zfill 2 (decimal (day d))
  ++ lit "_" ++ zfill 2 (decimal (hour d)) ++ zfill 2 (decimal (minute d))
  ++ zfill 2 (decimal (second d)).

(** [datetime.isoformat()]: [YYYY-MM-DDTHH:MM:SS], followed by the
    microseconds when there are any. *)
Definition isoformat (d : datetime) : pystr :=
  zfill 4 (decimal (year d)) ++ lit "-" ++ zfill 2 (decimal (month d))
  ++ lit "-" ++ zfill 2 (decimal (day d)) ++ lit "T"
  ++ zfill 2 (decimal (hour d)) ++ lit ":" ++ zfill 2 (decimal (minute d))
  ++ lit ":" ++ zfill 2 (decimal (second d))
  ++ (if (microsecond d =? 0)%N then []
      else lit "." ++ zfill 6 (decimal (microsecond d))).

Definition slash : codepoint := 47%N.

Definition starts_with_slash (p : pystr) : bool :=
  match p with c :: _ => (c =? slash)%N | [] => false end.

Definition ends_with_slash (p : pystr) : bool :=
  starts_with_slash (rev p).

(** [os.path.join(a, b)] of [posixpath]. *)
Definition path_join (a b : pystr) : pystr :=
  if starts_with_slash b then b
  else if Nat.eqb (length a) 0 || ends_with_slash a then a ++ b
  else a ++ slash :: b.

(* ================================================================= *)
(** ** Kinds of events *)

(** An event that touches the history file. *)
Definition is_history_event (E : env) (ev : event) : bool :=
  match ev with
  | EvExists p | EvOpenRead p => str_eqb p (history_file E)
  | _ => false
  end.

(** An event that creates or changes an output file. *)
Definition is_output_event (ev : event) : bool :=
  match ev with
  | EvOpenAppend _ | EvWrite _ _ => true
  | _ => false
  end.

Definition is_stderr_event (ev : event) : bool :=
  match ev with
  | EvStderr _ => true
  | _ => false
  end.

(** An event of the steps before the append: a look at the history file
    or the creation of the output directory. *)
Definition is_early_event (E : env) (ev : event) : bool :=
  match ev with
  | EvMakedirs _ => true
  | _ => is_history_event E ev
  end.

(** An attempt to open or to write an output file that failed. *)
Definition is_failed_append (E : env) (ev : event) : bool :=
  match ev with
  | EvOpenAppend p =>
      match open_error E p with Some _ => true | None => false end
  | EvWrite p text =>
      match write_error E p text with Some _ => true | None => false end
  | _ => false
  end.

(* ================================================================= *)
(** ** main (lines 49-94) *)

Section UsageRecorder.
Context {rt : PyRuntime}.

(** [os.makedirs(p, exist_ok=True)]. *)
Definition makedirs (E : env) (p : pystr) : M unit :=
  (emit (EvMakedirs p) ;;
   match makedirs_error E p with
   | Some e => raise e
   | None => ret tt
   end)%hook.

(** [open(p, 'a')]. *)
Definition open_append (E : env) (p : pystr) : M unit :=
  (emit (EvOpenAppend p) ;;
   match open_error E p with
   | Some e => raise e
   | None => ret tt
   end)%hook.

(** [f.write(text)], up to the file being closed. *)
Definition write (E : env) (p text : pystr) : M unit :=
  (emit (EvWrite p text) ;;
   match write_error E p text with
   | Some e => raise e
   | None => ret tt
   end)%hook.

(** A value inside an f-string. *)
Definition format_value (v : json) : pystr :=
  match v with
  | JStr s => s
  | _ => py_str v
  end.

(** Lines 70-72. *)
Definition analytics_dir_of (project_dir : pystr) : pystr :=
  path_join (path_join (path_join project_dir (lit ".claude"))
               (lit "analytics")) (lit "tool_usage_history").

(** What line 93 prints. *)
Definition diagnostic (e : exn) : pystr :=
  lit "Error writing to tool usage log: " ++ exn_str e ++ [newline].

(** Lines 56-86: everything between the parsing of the payload and the
    append, which yields [output_file] and [log_entry]. *)
Definition prepare_entry (E : env) (input_data : json) : M (pystr * json) :=
  (session_id <- lift (dict_get input_data (lit "session_id") JNull) ;;
   prompt <- (if truthy session_id
              then get_session_prompt E session_id
              else ret JNull) ;;
   sanitized_prompt <- lift (sanitize_filename prompt) ;;
   filename <-
     (if truthy session_id then
        ret (lit "session_" ++ format_value session_id ++ lit "_"
               ++ sanitized_prompt ++ lit ".jsonl")
      else
        now <- datetime_now E ;;
        ret (lit "tool_usage_" ++ strftime_stamp now ++ lit ".jsonl")) ;;
   project_dir <- lift (cwd E) ;;
   let analytics_dir := analytics_dir_of project_dir in
   makedirs E analytics_dir ;;
   let output_file := path_join analytics_dir filename in
   now <- datetime_now E ;;
   tool <- lift (dict_get input_data (lit "tool_name") JNull) ;;
   input <- lift (dict_get input_data (lit "tool_input") JNull) ;;
   response <- lift (dict_get input_data (lit "tool_response") JNull) ;;
   let log_entry :=
     JObj [ (lit "timestamp", JStr (isoformat now));
            (lit "tool", tool);
            (lit "input", input);
            (lit "result", response);
            (lit "session_id", session_id) ] in
   ret (output_file, log_entry))%hook.

(** Lines 88-94: the append, and the one handler that reports. *)
Definition append_entry (E : env) (output_file : pystr) (log_entry : json)
  : M unit :=
  try_except
    (open_append E output_file ;;
     write E output_file (json_dumps log_entry ++ [newline]))%hook
    (fun e => emit (EvStderr (diagnostic e)) ;; sys_exit 1%Z)%hook.

Definition main (E : env) : M unit :=
  match json_loads (stdin_text E) with
  | Raise JSONDecodeError => ret tt                          (* line 54 *)
  | Raise e => raise e
  | Ok input_data =>
      (job <- prepare_entry E input_data ;;
       append_entry E (fst job) (snd job))%hook
  end.

Definition initial_state : state := {| ticks := 0; trace := [] |}.

(** Lines 96-97, the script run as a process: the events it causes and
    its exit status.  An exception that leaves [main] makes the
    interpreter print a traceback and exit with status 1. *)
Definition run_hook (E : env) : list event * Z :=
  match main E initial_state with
  | (st, Done _) => (trace st, 0%Z)
  | (st, Raised e) => (trace st ++ [EvStderr (traceback e)], 1%Z)
  | (st, Exited code) => (trace st, code)
  end.

(** Every run of [main] is of one of five kinds. *)
Inductive run_kind (E : env) : list event -> outcome unit -> Prop :=
| RunNoInput :
    json_loads (stdin_text E) = Raise JSONDecodeError ->
    run_kind E [] (Done tt)
| RunEarlyFailure evs e :
    forallb (is_early_event E) evs = true ->
    run_kind E evs (Raised e)
| RunOpenFailure evs p e :
    forallb (is_early_event E) evs = true ->
    open_error E p = Some e ->
    run_kind E (evs ++ [EvOpenAppend p; EvStderr (diagnostic e)])
      (Exited 1%Z)
| RunWriteFailure evs p text e :
    forallb (is_early_event E) evs = true ->
    open_error E p = None ->
    write_error E p text = Some e ->
    run_kind E (evs ++ [EvOpenAppend p; EvWrite p text;
                        EvStderr (diagnostic e)])
      (Exited 1%Z)
| RunAppended evs p text :
    forallb (is_early_event E) evs = true ->
    open_error E p = None ->
    write_error E p text = None ->
    run_kind E (evs ++ [EvOpenAppend p; EvWrite p text]) (Done tt).

End UsageRecorder.

Definition is_digit (c : codepoint) : bool := ((48 <=? c) && (c <=? 57))%N.

(** The shape [tool_usage_<8 digits>_<6 digits>.jsonl]. *)
Definition is_fallback_name (name : pystr) : bool :=
  str_eqb (firstn 11 name) (lit "tool_usage_")
  && forallb is_digit (firstn 8 (skipn 11 name))
  && str_eqb (firstn 1 (skipn 19 name)) (lit "_")
  && forallb is_digit (firstn 6 (skipn 20 name))
  && str_eqb (skipn 26 name) (lit ".jsonl")
  && Nat.eqb (length name) 32.

(** The number a text of decimal digits denotes. *)
Definition decimal_value (digits : pystr) : N :=
  fold_left (fun acc c => (10 * acc + (c - 48))%N) digits 0%N.

(** The six numbers written in a name of that shape: those at the
    places of [YYYY], [MM], [DD], [HH], [MM] and [SS]. *)
Definition stamp_of_name (name : pystr) : N * N * N * N * N * N :=
  (decimal_value (firstn 4 (skipn 11 name)),
   decimal_value (firstn 2 (skipn 15 name)),
   decimal_value (firstn 2 (skipn 17 name)),
   decimal_value (firstn 2 (skipn 20 name)),
   decimal_value (firstn 2 (skipn 22 name)),
   decimal_value (firstn 2 (skipn 24 name))).

(** A reading of the clock with a four-digit year. *)
Definition four_digit_date (d : datetime) : Prop :=
  (1000 <= year d <= 9999 /\ 1 <= month d <= 12 /\ 1 <= day d <= 31 /\
   hour d <= 23 /\ minute d <= 59 /\ second d <= 59)%N.

(* ================================================================= *)
(** ** A concrete runtime and concrete runs *)

(** JSON text written with ['] where the document has a double quote. *)
Definition jtext (s : string) : pystr :=
  map (fun c => if (c =? 39)%N then 34%N else c) (lit s).
Arguments jtext s%_string.

Definition line_fix_bug : pystr :=
  jtext "{'sessionId': 'abc123', 'timestamp': 5, 'display': 'Fix the bug!!'}"
  ++ [newline].
Definition line_later : pystr :=
  jtext "{'sessionId': 'abc123', 'timestamp': 9, 'display': 'Run the tests'}"
  ++ [newline].
Definition line_no_timestamp : pystr :=
  jtext "{'sessionId': 'abc123', 'display': 'Hello'}" ++ [newline].
Definition line_text_timestamp : pystr :=
  jtext "{'sessionId': 'abc123', 'timestamp': 'noon', 'display': 'Lunch'}"
  ++ [newline].
Definition line_other_session : pystr :=
  jtext "{'sessionId': 'zzz', 'timestamp': 1, 'display': 'Elsewhere'}"
  ++ [newline].
Definition line_array : pystr := jtext "[]" ++ [newline].
Definition line_truncated : pystr := jtext "{'sessionId': 'abc" ++ [newline].

Definition payload_session : pystr :=
  jtext "{'session_id': 'abc123', 'tool_name': 'Bash', 'tool_input': {'cmd': 'ls'}, 'tool_response': {'ok': true}}".
Definition payload_no_session : pystr :=
  jtext "{'tool_name': 'Bash', 'tool_input': {'cmd': 'ls'}}".
Definition payload_array : pystr := jtext "[]".
Definition payload_truncated : pystr := jtext "{'session_id': 'abc".

(** What [json.loads] makes of the documents above that parse. *)
Definition sample_documents : list (pystr * json) :=
  [ (line_fix_bug,
     JObj [ (lit "sessionId", JStr (lit "abc123"));
            (lit "timestamp", JInt 5);
            (lit "display", JStr (lit "Fix the bug!!")) ]);
    (line_later,
     JObj [ (lit "sessionId", JStr (lit "abc123"));
            (lit "timestamp", JInt 9);
            (lit "display", JStr (lit "Run the tests")) ]);
    (line_no_timestamp,
     JObj [ (lit "sessionId", JStr (lit "abc123"));
            (lit "display", JStr (lit "Hello")) ]);
    (line_text_timestamp,
     JObj [ (lit "sessionId", JStr (lit "abc123"));
            (lit "timestamp", JStr (lit "noon"));
            (lit "display", JStr (lit "Lunch")) ]);
    (line_other_session,
     JObj [ (lit "sessionId", JStr (lit "zzz"));
            (lit "timestamp", JInt 1);
            (lit "display", JStr (lit "Elsewhere")) ]);
    (line_array, JArr []);
    (payload_session,
     JObj [ (lit "session_id", JStr (lit "abc123"));
            (lit "tool_name", JStr (lit "Bash"));
            (lit "tool_input", JObj [ (lit "cmd", JStr (lit "ls")) ]);
            (lit "tool_response", JObj [ (lit "ok", JBool true) ]) ]);
    (payload_no_session,
     JObj [ (lit "tool_name", JStr (lit "Bash"));
            (lit "tool_input", JObj [ (lit "cmd", JStr (lit "ls")) ]) ]);
    (payload_array, JArr []) ].

(** [json.loads] on the documents of this file; [line_truncated] and
    [payload_truncated] are cut off inside a string and do not parse. *)
Definition sample_loads (text : pystr) : result json :=
  match assoc text sample_documents with
  | Some v => Ok v
  | None => Raise JSONDecodeError
  end.

Definition decimal_Z (z : Z) : pystr :=
  if (z <? 0)%Z then lit "-" ++ decimal (Z.to_N (- z)) else decimal (Z.to_N z).

Definition quote_text (s : pystr) : pystr :=
  34%N :: flat_map (fun c => if ((c =? 34) || (c =? 92))%N
                             then [92%N; c] else [c]) s ++ [34%N].

(** [json.dumps] on values made of [None], booleans, integers, printable
    ASCII text, lists and dicts, which is all the examples write. *)
Fixpoint sample_dumps (v : json) : pystr :=
  match v with
  | JNull => lit "null"
  | JBool true => lit "true"
  | JBool false => lit "false"
  | JInt z => decimal_Z z
  | JFloat NaN => lit "NaN"
  | JFloat PosInf => lit "Infinity"
  | JFloat NegInf => lit "-Infinity"
  | JFloat (Fin q) => decimal_Z (Qnum q / Zpos (Qden q)) ++ lit ".0"
  | JStr s => quote_text s
  | JArr items =>
      lit "[" ++
      (fix go (items : list json) : pystr :=
         match items with
         | [] => []
         | [x] => sample_dumps x
         | x :: rest => sample_dumps x ++ lit ", " ++ go rest
         end) items ++ lit "]"
  | JObj fields =>
      lit "{" ++
      (fix go (fields : list (pystr * json)) : pystr :=
         match fields with
         | [] => []
         | [(k, x)] => quote_text k ++ lit ": " ++ sample_dumps x
         | (k, x) :: rest =>
             quote_text k ++ lit ": " ++ sample_dumps x ++ lit ", " ++ go rest
         end) fields ++ lit "}"
  end.

(** [str.isalnum] on Latin-1, the part of the Unicode table the examples
    reach: the letters, the superscript digits and the fractions. *)
Definition latin1_alnum (c : codepoint) : bool :=
  ((c =? 170) || (c =? 178) || (c =? 179) || (c =? 181) || (c =? 185)
   || (c =? 186) || (188 <=? c) && (c <=? 190)
   || (192 <=? c) && (c <=? 214) || (216 <=? c) && (c <=? 246)
   || (248 <=? c) && (c <=? 255))%N.

(** [str.isspace] on Latin-1: NEL and the no-break space. *)
Definition latin1_space (c : codepoint) : bool :=
  ((c =? 133) || (c =? 160))%N.

Definition sample_str (v : json) : pystr :=
  match v with
  | JNull => lit "None"
  | JBool true => lit "True"
  | JBool false => lit "False"
  | JInt z => decimal_Z z
  | _ => sample_dumps v
  end.

Definition exn_name (e : exn) : pystr :=
  match e with
  | JSONDecodeError => lit "JSONDecodeError"
  | AttributeError => lit "AttributeError"
  | TypeError => lit "TypeError"
  | OSError => lit "OSError"
  | UnicodeDecodeError => lit "UnicodeDecodeError"
  | RecursionError => lit "RecursionError"
  end.

Definition sample_runtime : PyRuntime := {|
  json_loads := sample_loads;
  json_dumps := sample_dumps;
  unicode_alnum := latin1_alnum;
  unicode_space := latin1_space;
  py_str := sample_str;
  exn_str := exn_name;
  traceback := fun e => lit "Traceback (most recent call last): " ++ exn_name e
|}.

Definition sample_time : datetime := {|
  year := 2024; month := 1; day := 2;
  hour := 3; minute := 4; second := 5; microsecond := 0
|}.

(** A run whose directory and file operations all succeed. *)
Definition sample_env (stdin : pystr) (h : history_source) : env := {|
  stdin_text := stdin;
  history_file := lit "/home/user/.claude/history.jsonl";
  history := h;
  clock := fun _ => sample_time;
  cwd := Ok (lit "/work");
  makedirs_error := fun _ => None;
  open_error := fun _ => None;
  write_error := fun _ _ => None
|}.

(** The same run on a disk where [os.makedirs] fails. *)
Definition readonly_env (stdin : pystr) (h : history_source) : env := {|
  stdin_text := stdin;
  history_file := lit "/home/user/.claude/history.jsonl";
  history := h;
  clock := fun _ => sample_time;
  cwd := Ok (lit "/work");
  makedirs_error := fun _ => Some OSError;
  open_error := fun _ => Some OSError;
  write_error := fun _ _ => Some OSError
|}.

(** The same run where only opening the output file fails. *)
Definition unwritable_env (stdin : pystr) (h : history_source) : env := {|
  stdin_text := stdin;
  history_file := lit "/home/user/.claude/history.jsonl";
  history := h;
  clock := fun _ => sample_time;
  cwd := Ok (lit "/work");
  makedirs_error := fun _ => None;
  open_error := fun _ => Some OSError;
  write_error := fun _ _ => None
|}.

(* ================================================================= *)
(** ** Further vocabulary *)

(** The environment [E] with another history file. *)
Definition with_history (E : env) (h : history_source) : env := {|
  stdin_text := stdin_text E;
  history_file := history_file E;
  history := h;
  clock := clock E;
  cwd := cwd E;
  makedirs_error := makedirs_error E;
  open_error := open_error E;
  write_error := write_error E
|}.

(** [d.get(key)] on the items of a dict. *)
Definition field_or_null (fields : list (pystr * json)) (key : pystr) : json :=
  match assoc key fields with Some v => v | None => JNull end.

(** The dict of lines 80-86 for a payload with the items [fields]. *)
Definition log_entry_of (fields : list (pystr * json)) (now : datetime)
  : json :=
  JObj [ (lit "timestamp", JStr (isoformat now));
         (lit "tool", field_or_null fields (lit "tool_name"));
         (lit "input", field_or_null fields (lit "tool_input"));
         (lit "result", field_or_null fields (lit "tool_response"));
         (lit "session_id", field_or_null fields (lit "session_id")) ].

(** No underscore at the end. *)
Definition no_trail (text : pystr) : Prop := no_lead (rev text).

Section MoreVocabulary.
Context {rt : PyRuntime}.

(** A line that [json.loads] does not reject with [JSONDecodeError]. *)
Definition decodes (line : pystr) : bool :=
  match json_loads line with
  | Raise JSONDecodeError => false
  | _ => true
  end.

(** The name of line 65. *)
Definition session_file_name (session_id : json) (label : pystr) : pystr :=
  lit "session_" ++ format_value session_id ++ lit "_" ++ label
  ++ lit ".jsonl".

(** The name of line 68. *)
Definition fallback_file_name (now : datetime) : pystr :=
  lit "tool_usage_" ++ strftime_stamp now ++ lit ".jsonl".

(** The file names [main] builds: the one of line 65, for some session
    identifier and label, or the one of line 68, for the first reading
    of the clock. *)
Definition output_name (E : env) (name : pystr) : Prop :=
  (exists session_id label, name = session_file_name session_id label) \/
  name = fallback_file_name (clock E 0).

(** The traces a run of [main] can leave, where [evs] are the looks at the
    history file: nothing after them, or the creation of the directory
    [dir], then at most one file opened, whose path is [dir], a slash and
    one of the names above, at most one line written to that file, and
    the diagnostic if one of the two failed. *)
Inductive run_trace (E : env) (evs : list event) (dir : pystr)
  : list event -> Prop :=
| TraceStopped : run_trace E evs dir evs
| TraceDirectory : run_trace E evs dir (evs ++ [EvMakedirs dir])
| TraceOpenFailed name e :
    output_name E name ->
    makedirs_error E dir = None ->
    open_error E (dir ++ slash :: name) = Some e ->
    run_trace E evs dir
      (evs ++ [EvMakedirs dir; EvOpenAppend (dir ++ slash :: name);
               EvStderr (diagnostic e)])
| TraceWriteFailed name entry e :
    output_name E name ->
    makedirs_error E dir = None ->
    open_error E (dir ++ slash :: name) = None ->
    write_error E (dir ++ slash :: name) (json_dumps entry ++ [newline])
      = Some e ->
    run_trace E evs dir
      (evs ++ [EvMakedirs dir; EvOpenAppend (dir ++ slash :: name);
               EvWrite (dir ++ slash :: name)
                 (json_dumps entry ++ [newline]);
               EvStderr (diagnostic e)])
| TraceWritten name entry :
    output_name E name ->
    makedirs_error E dir = None ->
    open_error E (dir ++ slash :: name) = None ->
    write_error E (dir ++ slash :: name) (json_dumps entry ++ [newline])
      = None ->
    run_trace E evs dir
      (evs ++ [EvMakedirs dir; EvOpenAppend (dir ++ slash :: name);
               EvWrite (dir ++ slash :: name)
                 (json_dumps entry ++ [newline])]).

End MoreVocabulary.

(** A history line whose display value is a number, and a runtime that
    knows it besides the documents above. *)
Definition line_number_display : pystr :=
  jtext "{'sessionId': 'abc123', 'timestamp': 1, 'display': 42}"
  ++ [newline].

Definition line_infinite_timestamp : pystr :=
  jtext "{'sessionId': 'abc123', 'timestamp': Infinity, 'display': 'Never'}"
  ++ [newline].

Definition line_zero_timestamp : pystr :=
  jtext "{'sessionId': 'abc123', 'timestamp': 0, 'display': 'Zero'}"
  ++ [newline].

Definition payload_empty_session : pystr :=
  jtext "{'session_id': '', 'tool_name': 'Bash'}".

Definition more_documents : list (pystr * json) :=
  [ (line_number_display,
     JObj [ (lit "sessionId", JStr (lit "abc123"));
            (lit "timestamp", JInt 1);
            (lit "display", JInt 42) ]);
    (line_infinite_timestamp,
     JObj [ (lit "sessionId", JStr (lit "abc123"));
            (lit "timestamp", JFloat PosInf);
            (lit "display", JStr (lit "Never")) ]);
    (line_zero_timestamp,
     JObj [ (lit "sessionId", JStr (lit "abc123"));
            (lit "timestamp", JInt 0);
            (lit "display", JStr (lit "Zero")) ]);
    (payload_empty_session,
     JObj [ (lit "session_id", JStr []);
            (lit "tool_name", JStr (lit "Bash")) ]) ].

Definition extended_loads (text : pystr) : result json :=
  match assoc text (more_documents ++ sample_documents) with
  | Some v => Ok v
  | None => Raise JSONDecodeError
  end.

Definition extended_runtime : PyRuntime := {|
  json_loads := extended_loads;
  json_dumps := sample_dumps;
  unicode_alnum := latin1_alnum;
  unicode_space := latin1_space;
  py_str := sample_str;
  exn_str := exn_name;
  traceback := fun e => lit "Traceback (most recent call last): " ++ exn_name e
|}.

(** A document of 2000 opening brackets: it is no JSON, and the decoder
    gives up on it with [RecursionError] before it finds that out. *)
Definition payload_nested : pystr := repeat 91%N 2000.

Definition nested_loads (text : pystr) : result json :=
  if str_eqb text payload_nested then Raise RecursionError
  else extended_loads text.

Definition nested_runtime : PyRuntime := {|
  json_loads := nested_loads;
  json_dumps := sample_dumps;
  unicode_alnum := latin1_alnum;
  unicode_space := latin1_space;
  py_str := sample_str;
  exn_str := exn_name;
  traceback := fun e => lit "Traceback (most recent call last): " ++ exn_name e
|}.

(** A run whose clock moves on by a second from one reading to the
    next. *)
Definition ticking_env (stdin : pystr) (h : history_source) : env := {|
  stdin_text := stdin;
  history_file := lit "/home/user/.claude/history.jsonl";
  history := h;
  clock := fun n => {| year := 2024; month := 11; day := 30;
                       hour := 23; minute := 59;
                       second := 7 + N.of_nat n; microsecond := 0 |};
  cwd := Ok (lit "/work");
  makedirs_error := fun _ => None;
  open_error := fun _ => None;
  write_error := fun _ _ => None
|}.

(* ================================================================= *)
(** * Properties *)

(** ** Text and numbers *)

Lemma str_eqb_eq : forall s t, str_eqb s t = true <-> s = t.
Proof.
  induction s as [|c s IH]; destruct t as [|d t]; simpl; split;
    try congruence; try reflexivity.
  - intros H. apply andb_true_iff in H as [H1 H2].
    apply N.eqb_eq in H1. apply IH in H2. congruence.
  - intros H. inversion H; subst. rewrite N.eqb_refl. simpl. now apply IH.
Qed.

Lemma str_eqb_refl : forall s, str_eqb s s = true.
Proof. intros s. now apply str_eqb_eq. Qed.

Lemma Qltb_true : forall p q, negb (Qle_bool q p) = true <-> (p < q)%Q.
Proof.
  intros p q. rewrite negb_true_iff. split; intros H.
  - apply Qnot_le_lt. intros Hle. apply Qle_bool_iff in Hle. congruence.
  - destruct (Qle_bool q p) eqn:Hb; [|reflexivity].
    apply Qle_bool_iff in Hb. exfalso. exact (Qlt_not_le _ _ H Hb).
Qed.

Lemma Qltb_false : forall p q, negb (Qle_bool q p) = false <-> (q <= p)%Q.
Proof.
  intros p q. rewrite negb_false_iff. apply Qle_bool_iff.
Qed.

(** [<] on numbers is transitive. *)
Lemma num_ltb_trans : forall a b c,
  num_ltb a b = true -> num_ltb b c = true -> num_ltb a c = true.
Proof.
  intros [| |p|] [| |q|] [| |r|]; simpl; try congruence.
  rewrite !Qltb_true. apply Qlt_trans.
Qed.

(** Something that is not below [b] is above whatever is below [b],
    unless it is NaN. *)
Lemma num_ltb_below : forall a b c,
  num_ltb a b = true -> num_ltb c b = false -> c <> NaN ->
  num_ltb a c = true.
Proof.
  intros [| |p|] [| |q|] [| |r|]; simpl; try congruence.
  rewrite Qltb_false, !Qltb_true. intros H1 H2 _.
  eapply Qlt_le_trans; eassumption.
Qed.

Lemma num_ltb_irrefl : forall a, num_ltb a a = false.
Proof.
  intros [| |p|]; simpl; try reflexivity.
  apply Qltb_false. apply Qle_refl.
Qed.

Lemma num_ltb_asym : forall a b, num_ltb a b = true -> num_ltb b a = false.
Proof.
  intros [| |p|] [| |q|]; simpl; try congruence.
  rewrite Qltb_true, Qltb_false. apply Qlt_le_weak.
Qed.


Lemma py_lt_numbers : forall a b x y,
  as_number a = Some x -> as_number b = Some y ->
  py_lt a b = Ok (num_ltb x y).
Proof.
  intros a b x y Ha Hb.
  destruct a; simpl in Ha; try discriminate;
    destruct b; simpl in Hb; try discriminate;
    injection Ha as <-; injection Hb as <-; reflexivity.
Qed.

Lemma py_lt_not_number : forall a b y,
  as_number a = None -> as_number b = Some y ->
  py_lt a b = Raise TypeError.
Proof.
  intros a b y Ha Hb.
  destruct a; simpl in Ha; try discriminate;
    destruct b; simpl in Hb; try discriminate; reflexivity.
Qed.

(* ----------------------------------------------------------------- *)
(** ** The scan of the history file *)

Section SessionLabelerFacts.
Context {rt : PyRuntime}.

Lemma record_fields_loads : forall sid line fields,
  record_fields sid line = Some fields ->
  json_loads line = Ok (JObj fields) /\
  dict_get (JObj fields) (lit "sessionId") JNull
    = Ok (match assoc (lit "sessionId") fields with
          | Some v => v | None => JNull end) /\
  py_eq (match assoc (lit "sessionId") fields with
         | Some v => v | None => JNull end) sid = true.
Proof.
  unfold record_fields. intros sid line fields H.
  destruct (json_loads line) as [[| | | | | |fs]|e]; try discriminate.
  destruct (py_eq _ sid) eqn:Heq; [|discriminate].
  inversion H; subst. auto.
Qed.

(** A line that does not parse is skipped. *)
Lemma scan_line_decode_error : forall sid st line,
  json_loads line = Raise JSONDecodeError -> scan_line sid st line = Ok st.
Proof. intros sid st line H. unfold scan_line. rewrite H. reflexivity. Qed.

(** An object of another session leaves the state alone. *)
Lemma scan_line_other : forall sid st line fields,
  json_loads line = Ok (JObj fields) -> record_fields sid line = None ->
  scan_line sid st line = Ok st.
Proof.
  intros sid st line fields H Hnone. unfold record_fields in Hnone.
  unfold scan_line. rewrite H in *. simpl.
  destruct (py_eq _ sid); [discriminate|reflexivity].
Qed.

(** A matching record with a number for a timestamp: lines 25-27. *)
Lemma scan_line_record : forall sid st line fields t m,
  record_fields sid line = Some fields ->
  as_number (timestamp_of fields) = Some t ->
  as_number (min_timestamp st) = Some m ->
  scan_line sid st line =
  Ok (if num_ltb t m
      then {| first_prompt := display_of fields;
              min_timestamp := timestamp_of fields |}
      else st).
Proof.
  intros sid st line fields t m Hrec Ht Hm.
  apply record_fields_loads in Hrec as (Hl & _ & Heq).
  unfold scan_line. rewrite Hl. simpl. rewrite Heq.
  fold (timestamp_of fields). rewrite (py_lt_numbers _ _ _ _ Ht Hm). simpl.
  destruct (num_ltb t m); reflexivity.
Qed.

(** A matching record whose timestamp is no number: the comparison of
    line 25 raises, and the inner handler does not take it. *)
Lemma scan_line_type_error : forall sid st line fields m,
  record_fields sid line = Some fields ->
  as_number (timestamp_of fields) = None ->
  as_number (min_timestamp st) = Some m ->
  scan_line sid st line = Raise TypeError.
Proof.
  intros sid st line fields m Hrec Ht Hm.
  apply record_fields_loads in Hrec as (Hl & _ & Heq).
  unfold scan_line. rewrite Hl. simpl. rewrite Heq.
  fold (timestamp_of fields). rewrite (py_lt_not_number _ _ _ Ht Hm).
  reflexivity.
Qed.

(** The running minimum is a number at every turn. *)
Lemma scan_line_keeps_number : forall sid st line st',
  as_number (min_timestamp st) <> None ->
  scan_line sid st line = Ok st' ->
  as_number (min_timestamp st') <> None.
Proof.
  intros sid st line st' Hm H.
  destruct (as_number (min_timestamp st)) as [m|] eqn:Em; [|congruence].
  destruct (record_fields sid line) as [fields|] eqn:Hrec.
  - destruct (as_number (timestamp_of fields)) as [t|] eqn:Et.
    + rewrite (scan_line_record _ _ _ _ _ _ Hrec Et Em) in H.
      inversion H; subst. destruct (num_ltb t m); simpl; congruence.
    + rewrite (scan_line_type_error _ _ _ _ _ Hrec Et Em) in H. discriminate.
  - unfold record_fields in Hrec. unfold scan_line in H.
    destruct (json_loads line) as [[| | | | | |fs]|e]; simpl in H;
      try discriminate.
    + destruct (py_eq _ sid); [discriminate|]. inversion H; subst. congruence.
    + destruct e; inversion H; subst; congruence.
Qed.

(** Without a matching record a turn changes nothing, if it ends. *)
Lemma scan_line_no_match : forall sid st line st',
  record_fields sid line = None ->
  scan_line sid st line = Ok st' -> st' = st.
Proof.
  intros sid st line st' Hrec H.
  unfold record_fields in Hrec. unfold scan_line in H.
  destruct (json_loads line) as [[| | | | | |fs]|e]; simpl in H;
    try discriminate.
  - destruct (py_eq _ sid); [discriminate|]. now inversion H.
  - destruct e; now inversion H.
Qed.

Lemma scan_lines_no_match : forall sid lines st st',
  (forall line, In line lines -> record_fields sid line = None) ->
  scan_lines sid st lines = Ok st' -> st' = st.
Proof.
  intros sid lines. induction lines as [|line rest IH]; intros st st' Hno H.
  - simpl in H. now inversion H.
  - simpl in H. destruct (scan_line sid st line) as [s1|e] eqn:E1;
      simpl in H; [|discriminate].
    apply scan_line_no_match in E1; [|apply Hno; now left]. subst s1.
    apply IH; [|assumption]. intros l Hl. apply Hno. now right.
Qed.

(** A matching record whose timestamp is no number stops the scan,
    wherever it stands. *)
Lemma scan_lines_type_error : forall sid lines st line fields,
  as_number (min_timestamp st) <> None ->
  In line lines ->
  record_fields sid line = Some fields ->
  as_number (timestamp_of fields) = None ->
  exists e, scan_lines sid st lines = Raise e.
Proof.
  intros sid lines. induction lines as [|l rest IH];
    intros st line fields Hm Hin Hrec Ht.
  - destruct Hin.
  - simpl. destruct (scan_line sid st l) as [s1|e] eqn:E1; simpl.
    + destruct Hin as [->|Hin].
      * destruct (as_number (min_timestamp st)) as [m|] eqn:Em; [|congruence].
        rewrite (scan_line_type_error _ _ _ _ _ Hrec Ht Em) in E1.
        discriminate.
      * eapply IH; eauto. eapply scan_line_keeps_number; eauto.
    + now exists e.
Qed.


Lemma record_time_none : forall sid line,
  record_fields sid line = None -> record_time sid line = None.
Proof. unfold record_time. intros sid line ->. reflexivity. Qed.


(** What [get_session_prompt] returns when the file is there and opens. *)
Lemma get_session_prompt_lines : forall E sid st lines,
  history E = HistLines lines ->
  snd (get_session_prompt E sid st) =
  Done (match scan_lines sid scan_init lines with
        | Ok s => first_prompt s
        | Raise _ => JNull
        end).
Proof.
  intros E sid st lines H.
  unfold get_session_prompt, path_exists_history, open_history, try_except,
    bind, emit, ret, lift, raise.
  rewrite H. simpl.
  destruct (scan_lines sid scan_init lines); reflexivity.
Qed.

(** It always returns, and leaves in the trace only that it looked at
    the history file. *)
Lemma get_session_prompt_returns : forall E sid st,
  exists v evs,
    get_session_prompt E sid st =
      ({| ticks := ticks st; trace := trace st ++ evs |}, Done v) /\
    forallb (is_history_event E) evs = true.
Proof.
  intros E sid st.
  unfold get_session_prompt, path_exists_history, open_history, try_except,
    bind, emit, ret, lift, raise.
  destruct (history E) as [|e|lines]; simpl.
  - exists JNull, [EvExists (history_file E)]. split; [reflexivity|].
    simpl. now rewrite str_eqb_refl.
  - exists JNull, [EvExists (history_file E); EvOpenRead (history_file E)].
    rewrite <- app_assoc. split; [reflexivity|].
    simpl. now rewrite str_eqb_refl.
  - destruct (scan_lines sid scan_init lines) as [s|e]; simpl;
      eexists; exists [EvExists (history_file E); EvOpenRead (history_file E)];
      rewrite <- app_assoc; (split; [reflexivity|]);
      simpl; now rewrite str_eqb_refl.
Qed.

End SessionLabelerFacts.

(* ----------------------------------------------------------------- *)
(** ** The scan when timestamps are any numbers *)

Section SessionLabelerNumbers.
Context {rt : PyRuntime}.

Lemma passable_cases : forall sid line,
  passable sid line ->
  json_loads line = Raise JSONDecodeError \/
  (exists fields, json_loads line = Ok (JObj fields) /\
                  record_fields sid line = None) \/
  (exists fields t, record_fields sid line = Some fields /\
                    as_number (timestamp_of fields) = Some t).
Proof.
  unfold passable. intros sid line H.
  destruct (json_loads line) as [[| | | | | |fs]|e] eqn:El; try contradiction.
  - destruct (record_fields sid line) as [fields|] eqn:Hrec.
    + right; right. destruct H as (t & Ht).
      apply record_fields_loads in Hrec as Hl. destruct Hl as (Hl & _).
      assert (fields = fs) by congruence. subst. eauto.
    + right; left. eauto.
  - left. now subst.
Qed.

Lemma number_is_NaN_or_not : forall t : number, t = NaN \/ t <> NaN.
Proof. intros [| |q|]; [now left | right | right | right]; discriminate. Qed.

(** The invariant of the loop, for timestamps that are any numbers.  The
    running minimum [m] is never NaN; the record selected is below [m],
    below every earlier matching record that is not NaN, and not above
    any later one. *)
Lemma scan_lines_numbers : forall sid lines st m,
  as_number (min_timestamp st) = Some m ->
  (forall line, In line lines -> passable sid line) ->
  exists st', scan_lines sid st lines = Ok st' /\
    ((st' = st /\
      forall line t, In line lines -> record_time sid line = Some t ->
                     num_ltb t m = false)
     \/
     (exists before line after fields t,
        lines = before ++ line :: after /\
        record_fields sid line = Some fields /\
        as_number (timestamp_of fields) = Some t /\
        num_ltb t m = true /\
        (forall l t', In l before -> record_time sid l = Some t' ->
                      t' = NaN \/ num_ltb t t' = true) /\
        (forall l t', In l after -> record_time sid l = Some t' ->
                      num_ltb t' t = false) /\
        first_prompt st' = display_of fields)).
Proof.
  intros sid lines. induction lines as [|l rest IH]; intros st m Hm Hall.
  - exists st. split; [reflexivity|]. left. split; [reflexivity|].
    intros line t [].
  - assert (Hrest : forall line, In line rest -> passable sid line)
      by (intros; apply Hall; now right).
    assert (Hskip : record_time sid l = None ->
              scan_line sid st l = Ok st ->
              exists st', scan_lines sid st (l :: rest) = Ok st' /\
                ((st' = st /\
                  forall line t, In line (l :: rest) ->
                    record_time sid line = Some t -> num_ltb t m = false)
                 \/
                 (exists before line after fields t,
                    l :: rest = before ++ line :: after /\
                    record_fields sid line = Some fields /\
                    as_number (timestamp_of fields) = Some t /\
                    num_ltb t m = true /\
                    (forall l0 t', In l0 before ->
                       record_time sid l0 = Some t' ->
                       t' = NaN \/ num_ltb t t' = true) /\
                    (forall l0 t', In l0 after ->
                       record_time sid l0 = Some t' ->
                       num_ltb t' t = false) /\
                    first_prompt st' = display_of fields))).
    { intros Hnone Hline. simpl. rewrite Hline. simpl.
      destruct (IH st m Hm Hrest) as (st' & Hs & [[-> Hlow] | Hwin]).
      - exists st. split; [assumption|]. left. split; [reflexivity|].
        intros line t' [<-|Hin] Ht'; [congruence|eauto].
      - destruct Hwin as (b & w & a & fw & tw & -> & ?&?&?& Hbf & ?&?).
        exists st'. split; [assumption|]. right.
        exists (l :: b), w, a, fw, tw. repeat split; auto.
        intros l0 t' [<-|Hin] Ht'; [congruence|eauto]. }
    destruct (passable_cases sid l (Hall l (or_introl eq_refl)))
      as [Hdec | [(fs & Hl & Hnone) | (fs & t & Hrec & Ht)]].
    + apply Hskip.
      * unfold record_time, record_fields. now rewrite Hdec.
      * now apply scan_line_decode_error.
    + apply Hskip.
      * now apply record_time_none.
      * now apply (scan_line_other _ _ _ fs).
    + clear Hskip.
      assert (Htime : record_time sid l = Some t).
      { unfold record_time. now rewrite Hrec. }
      simpl. rewrite (scan_line_record _ _ _ _ _ _ Hrec Ht Hm). simpl.
      destruct (num_ltb t m) eqn:Hlt.
      * destruct (IH {| first_prompt := display_of fs;
                        min_timestamp := timestamp_of fs |} t Ht Hrest)
          as (st' & Hs & [[-> Hlow] | Hwin]).
        -- eexists. split; [eassumption|]. right.
           exists [], l, rest, fs, t. repeat split; auto.
           all: try (intros l0 t' []).
        -- destruct Hwin as (b & w & a & fw & tw & -> & ?&?& Hwt & Hbf & ?&?).
           exists st'. split; [assumption|]. right.
           exists (l :: b), w, a, fw, tw. repeat split; auto.
           ++ eapply num_ltb_trans; eassumption.
           ++ intros l0 t' [<-|Hin] Ht'; [|eauto].
              assert (t' = t) by congruence. subst. now right.
      * destruct (IH st m Hm Hrest) as (st' & Hs & [[-> Hlow] | Hwin]).
        -- exists st. split; [assumption|]. left. split; [reflexivity|].
           intros line t' [<-|Hin] Ht'; [|eauto].
           assert (t' = t) by congruence. now subst.
        -- destruct Hwin as (b & w & a & fw & tw & -> & ?&?& Hwt & Hbf & ?&?).
           exists st'. split; [assumption|]. right.
           exists (l :: b), w, a, fw, tw. repeat split; auto.
           intros l0 t' [<-|Hin] Ht'; [|eauto].
           assert (t' = t) by congruence. subst t'.
           destruct (number_is_NaN_or_not t) as [HN | HN]; [now left|].
           right. eapply num_ltb_below; eassumption.
Qed.

End SessionLabelerNumbers.

(* ----------------------------------------------------------------- *)
(** ** The session labeler: what it returns *)

Ltac sample_line_cases H :=
  repeat (destruct H as [<-|H]); [..|destruct H].




(** C4.  If the history file is missing, cannot be opened, or holds no
    record matching the session identifier, [get_session_prompt] returns
    [None]; it ends with a value, never with an exception. *)
Theorem get_session_prompt_absent :
  forall (rt : PyRuntime) E session_id st,
    (history E = HistMissing \/
     (exists e, history E = HistUnreadable e) \/
     (exists lines, history E = HistLines lines /\
        forall line, In line lines -> record_fields session_id line = None)) ->
    snd (get_session_prompt E session_id st) = Done JNull.
Proof.
  intros rt E sid st [H | [(e & H) | (lines & H & Hno)]].
  - unfold get_session_prompt, path_exists_history, bind, emit, ret.
    rewrite H. reflexivity.
  - unfold get_session_prompt, path_exists_history, open_history, try_except,
      bind, emit, ret, raise.
    rewrite H. reflexivity.
  - rewrite (get_session_prompt_lines E sid st lines H).
    destruct (scan_lines sid scan_init lines) as [s|e] eqn:Hs; [|reflexivity].
    apply scan_lines_no_match in Hs; [|assumption]. now subst.
Qed.

Lemma get_session_prompt_absent_witness :
  snd (@get_session_prompt sample_runtime
         (sample_env payload_session
            (HistLines [line_other_session; line_truncated]))
         (JStr (lit "abc123")) initial_state) = Done JNull.
Proof.
  apply (get_session_prompt_absent sample_runtime).
  right; right. eexists. split; [reflexivity|].
  intros line H. sample_line_cases H; vm_compute; reflexivity.
Defined.

(** C9.  A matching record without a [timestamp] field takes part in the
    selection with timestamp 0.  At its turn of the loop it is compared
    as the number 0 against the running minimum: it is taken, and 0
    becomes the running minimum, exactly when 0 is below that minimum,
    and otherwise the state stays as it is.  So when no line stops the
    scan, the record whose display text is returned has a timestamp that
    is not positive: no matching record with a positive timestamp is
    ever preferred to the one without. *)
Theorem missing_timestamp_counts_as_zero :
  forall (rt : PyRuntime) E session_id st lines line0 fields0,
    history E = HistLines lines ->
    (forall line, In line lines -> passable session_id line) ->
    In line0 lines ->
    record_fields session_id line0 = Some fields0 ->
    assoc (lit "timestamp") fields0 = None ->
    (forall s m,
       as_number (min_timestamp s) = Some m ->
       scan_line session_id s line0 =
       Ok (if num_ltb (Fin (inject_Z 0)) m
           then {| first_prompt := display_of fields0;
                   min_timestamp := JInt 0 |}
           else s)) /\
    exists line fields t,
      In line lines /\
      record_fields session_id line = Some fields /\
      as_number (timestamp_of fields) = Some t /\
      num_ltb (Fin (inject_Z 0)) t = false /\
      snd (get_session_prompt E session_id st) = Done (display_of fields).
Proof.
  intros rt E sid st lines l0 f0 Hh Hall Hin0 Hrec0 Hts0.
  assert (Hts : timestamp_of f0 = JInt 0).
  { unfold timestamp_of. now rewrite Hts0. }
  assert (Htime0 : record_time sid l0 = Some (Fin (inject_Z 0))).
  { unfold record_time. now rewrite Hrec0, Hts. }
  split.
  { intros s m Hm.
    rewrite (scan_line_record sid s l0 f0 (Fin (inject_Z 0)) m Hrec0);
      [now rewrite Hts | now rewrite Hts | assumption]. }
  rewrite (get_session_prompt_lines E sid st lines Hh).
  destruct (scan_lines_numbers sid lines scan_init PosInf eq_refl Hall)
    as (st' & Hs & [[_ Hlow] | Hwin]).
  - specialize (Hlow l0 _ Hin0 Htime0). discriminate.
  - destruct Hwin as (b & w & a & fw & tw & Hsplit & Hrec & Ht & _ & Hbf
                      & Haf & Hfp).
    rewrite Hs, Hfp. exists w, fw, tw. repeat split; auto.
    + subst lines. apply in_or_app. right. now left.
    + subst lines. apply in_app_or in Hin0 as [Hin | [-> | Hin]].
      * apply num_ltb_asym.
        destruct (Hbf _ _ Hin Htime0) as [HN | Hlt];
          [discriminate | exact Hlt].
      * assert (tw = Fin (inject_Z 0)).
        { unfold record_time in Htime0. rewrite Hrec in Htime0. congruence. }
        subst tw. apply num_ltb_irrefl.
      * eapply Haf; eassumption.
Qed.

Lemma missing_timestamp_counts_as_zero_witness :
  (forall s m,
     as_number (min_timestamp s) = Some m ->
     @scan_line extended_runtime (JStr (lit "abc123")) s line_no_timestamp =
     Ok (if num_ltb (Fin (inject_Z 0)) m
         then {| first_prompt := JStr (lit "Hello");
                 min_timestamp := JInt 0 |}
         else s)) /\
  exists line fields t,
    In line [line_zero_timestamp; line_no_timestamp; line_later] /\
    @record_fields extended_runtime (JStr (lit "abc123")) line = Some fields /\
    as_number (timestamp_of fields) = Some t /\
    num_ltb (Fin (inject_Z 0)) t = false /\
    snd (@get_session_prompt extended_runtime
           (sample_env payload_session
              (HistLines [line_zero_timestamp; line_no_timestamp;
                          line_later]))
           (JStr (lit "abc123")) initial_state) = Done (display_of fields).
Proof.
  apply (missing_timestamp_counts_as_zero extended_runtime
           (sample_env payload_session
              (HistLines [line_zero_timestamp; line_no_timestamp;
                          line_later]))
           (JStr (lit "abc123")) initial_state
           [line_zero_timestamp; line_no_timestamp; line_later]
           line_no_timestamp
           [ (lit "sessionId", JStr (lit "abc123"));
             (lit "display", JStr (lit "Hello")) ]).
  - reflexivity.
  - intros line H. sample_line_cases H; vm_compute;
      eexists; reflexivity.
  - right; now left.
  - vm_compute. reflexivity.
  - vm_compute. reflexivity.
Defined.

(** C10.  If some line of the history file parses, matches the session
    identifier and carries a timestamp that is no number (a string, say),
    the comparison of line 25 raises, the whole scan is given up and
    [get_session_prompt] returns [None], whatever other matching records
    the file holds. *)
Theorem unordered_timestamp_aborts_scan :
  forall (rt : PyRuntime) E session_id st lines line fields,
    history E = HistLines lines ->
    In line lines ->
    record_fields session_id line = Some fields ->
    as_number (timestamp_of fields) = None ->
    snd (get_session_prompt E session_id st) = Done JNull.
Proof.
  intros rt E sid st lines line fields Hh Hin Hrec Ht.
  rewrite (get_session_prompt_lines E sid st lines Hh).
  destruct (scan_lines_type_error sid lines scan_init line fields)
    as (e & He); auto.
  - simpl. discriminate.
  - now rewrite He.
Qed.

Lemma unordered_timestamp_aborts_scan_witness :
  snd (@get_session_prompt sample_runtime
         (sample_env payload_session
            (HistLines [line_fix_bug; line_text_timestamp; line_later]))
         (JStr (lit "abc123")) initial_state) = Done JNull.
Proof.
  apply (unordered_timestamp_aborts_scan sample_runtime
           (sample_env payload_session
              (HistLines [line_fix_bug; line_text_timestamp; line_later]))
           (JStr (lit "abc123")) initial_state
           [line_fix_bug; line_text_timestamp; line_later]
           line_text_timestamp
           [ (lit "sessionId", JStr (lit "abc123"));
             (lit "timestamp", JStr (lit "noon"));
             (lit "display", JStr (lit "Lunch")) ]).
  - reflexivity.
  - right; now left.
  - vm_compute. reflexivity.
  - vm_compute. reflexivity.
Defined.

(* ----------------------------------------------------------------- *)
(** ** sanitize_filename *)

Section SanitizerFacts.
Context {rt : PyRuntime}.

Lemma ascii_word_cases : forall c,
  ascii_word c = true ->
  (48 <= c <= 57 \/ 65 <= c <= 90 \/ 97 <= c <= 122 \/ c = 95)%N.
Proof.
  intros c. unfold ascii_word, ascii_alnum, underscore.
  rewrite !orb_true_iff, !andb_true_iff, !N.leb_le, N.eqb_eq. lia.
Qed.

Lemma ascii_word_is_word : forall c, ascii_word c = true -> is_word c = true.
Proof.
  intros c H. unfold is_word.
  assert (Hlt : (c <? 128)%N = true).
  { apply N.ltb_lt. apply ascii_word_cases in H. lia. }
  now rewrite Hlt.
Qed.

Lemma ascii_word_not_separator : forall c,
  ascii_word c = true -> is_separator c = false.
Proof.
  intros c H. apply ascii_word_cases in H.
  unfold is_separator, is_space, ascii_space, hyphen.
  assert (Hlt : (c <? 128)%N = true) by (apply N.ltb_lt; lia).
  rewrite Hlt.
  rewrite !orb_false_iff, !andb_false_iff, !N.leb_gt, !N.eqb_neq. lia.
Qed.

Lemma is_word_name_char : forall c, is_word c = true -> name_char c = true.
Proof.
  intros c. unfold is_word, name_char.
  destruct (c <? 128)%N eqn:Hlt; intros H.
  - now rewrite H.
  - apply N.ltb_ge in Hlt. apply N.leb_le in Hlt. rewrite Hlt, H.
    apply orb_true_r.
Qed.

Lemma underscore_is_word : is_word underscore = true.
Proof. reflexivity. Qed.

(** Line 43 leaves word characters, white space and hyphens. *)
Lemma remove_special_kept : forall text,
  Forall (fun c => is_word c = true \/ is_separator c = true)
    (remove_special text).
Proof.
  intros text. unfold remove_special. apply Forall_forall.
  intros c Hc. apply filter_In in Hc as [_ Hc].
  unfold is_separator.
  destruct (is_word c); [now left|]. right. simpl in Hc.
  now rewrite orb_comm.
Qed.

(** Line 44 leaves word characters only. *)
Lemma collapse_runs_words : forall text in_run,
  Forall (fun c => is_word c = true \/ is_separator c = true) text ->
  Forall (fun c => is_word c = true) (collapse_runs in_run text).
Proof.
  induction text as [|c rest IH]; intros in_run H; simpl.
  - constructor.
  - inversion H as [|? ? Hc Hrest]; subst.
    destruct (is_separator c) eqn:Hsep.
    + destruct in_run; [now apply IH|].
      constructor; [exact underscore_is_word | now apply IH].
    + constructor; [|now apply IH]. destruct Hc; congruence.
Qed.

Lemma lstrip_underscores_suffix : forall text,
  exists p, text = p ++ lstrip_underscores text.
Proof.
  induction text as [|c rest [p IH]]; simpl.
  - now exists [].
  - destruct (c =? underscore)%N.
    + exists (c :: p). simpl. now f_equal.
    + now exists [].
Qed.

Lemma lstrip_underscores_Forall : forall (P : codepoint -> Prop) text,
  Forall P text -> Forall P (lstrip_underscores text).
Proof.
  intros P text H. destruct (lstrip_underscores_suffix text) as [p Hp].
  rewrite Hp in H. now apply Forall_app in H as [_ H].
Qed.

Lemma lstrip_underscores_length : forall text,
  length (lstrip_underscores text) <= length text.
Proof.
  intros text. destruct (lstrip_underscores_suffix text) as [p Hp].
  rewrite Hp at 2. rewrite length_app. lia.
Qed.

Lemma strip_underscores_Forall : forall (P : codepoint -> Prop) text,
  Forall P text -> Forall P (strip_underscores text).
Proof.
  intros P text H. unfold strip_underscores.
  apply Forall_rev, lstrip_underscores_Forall, Forall_rev.
  now apply lstrip_underscores_Forall.
Qed.

Lemma strip_underscores_length : forall text,
  length (strip_underscores text) <= length text.
Proof.
  intros text. unfold strip_underscores. rewrite length_rev.
  etransitivity; [apply lstrip_underscores_length|].
  rewrite length_rev. apply lstrip_underscores_length.
Qed.

Lemma lstrip_underscores_no_lead : forall text,
  no_lead (lstrip_underscores text).
Proof.
  induction text as [|c rest IH]; simpl; [exact I|].
  destruct (c =? underscore)%N eqn:E; [assumption|]. simpl. exact E.
Qed.

Lemma lstrip_underscores_fixed : forall text,
  no_lead text -> lstrip_underscores text = text.
Proof.
  intros [|c rest] H; simpl in *; [reflexivity|]. now rewrite H.
Qed.

Lemma no_lead_prefix : forall p q, no_lead (p ++ q) -> no_lead p.
Proof. intros [|c p] q H; simpl in *; auto. Qed.

(** [.strip('_')] has nothing left to do on its own result. *)
Lemma strip_underscores_idempotent : forall text,
  strip_underscores (strip_underscores text) = strip_underscores text.
Proof.
  intros text. unfold strip_underscores.
  set (a := lstrip_underscores text).
  set (b := lstrip_underscores (rev a)).
  assert (Ha : no_lead a) by apply lstrip_underscores_no_lead.
  assert (Hb : no_lead b) by apply lstrip_underscores_no_lead.
  destruct (lstrip_underscores_suffix (rev a)) as [p Hp]. fold b in Hp.
  assert (Hrev : a = rev b ++ rev p).
  { rewrite <- rev_app_distr, <- Hp. now rewrite rev_involutive. }
  rewrite Hrev in Ha. apply no_lead_prefix in Ha.
  rewrite (lstrip_underscores_fixed _ Ha), rev_involutive.
  now rewrite (lstrip_underscores_fixed _ Hb).
Qed.

Lemma remove_special_clean : forall x,
  clean_text x = true -> remove_special x = x.
Proof.
  unfold clean_text, remove_special. induction x as [|c x IH]; simpl.
  - reflexivity.
  - intros H. apply andb_true_iff in H as [Hc Hx].
    rewrite (ascii_word_is_word _ Hc). simpl. now rewrite IH.
Qed.

Lemma collapse_runs_clean : forall x in_run,
  clean_text x = true -> collapse_runs in_run x = x.
Proof.
  unfold clean_text. induction x as [|c x IH]; simpl; intros in_run H.
  - reflexivity.
  - apply andb_true_iff in H as [Hc Hx].
    rewrite (ascii_word_not_separator _ Hc). now rewrite IH.
Qed.

Lemma strip_underscores_clean : forall x,
  clean_text x = true -> clean_text (strip_underscores x) = true.
Proof.
  unfold clean_text. intros x H. apply forallb_forall.
  apply Forall_forall. apply strip_underscores_Forall.
  apply Forall_forall. now apply forallb_forall.
Qed.

Lemma firstn_Forall : forall (P : codepoint -> Prop) n text,
  Forall P text -> Forall P (firstn n text).
Proof.
  intros P n text H. rewrite <- (firstn_skipn n text) in H.
  now apply Forall_app in H as [H _].
Qed.

Lemma truthy_text : forall c s, truthy (JStr (c :: s)) = true.
Proof. reflexivity. Qed.

(** On clean text of at most 50 characters that is not empty, the
    function strips the underscores at both ends and does nothing else. *)
Lemma sanitize_filename_clean : forall c x,
  clean_text (c :: x) = true -> length (c :: x) <= 50 ->
  sanitize_filename (JStr (c :: x)) = Ok (strip_underscores (c :: x)).
Proof.
  intros c x Hclean Hlen. unfold sanitize_filename.
  rewrite truthy_text. cbn [negb].
  rewrite (remove_special_clean _ Hclean), (collapse_runs_clean _ _ Hclean).
  rewrite firstn_all2; [reflexivity|].
  etransitivity; [apply strip_underscores_length | exact Hlen].
Qed.

End SanitizerFacts.

(** C2, as the code has it.  For every input text [sanitize_filename]
    returns a text of at most 50 characters, each of which is a word
    character in the sense of [\w]: one of [A-Za-z0-9_], or an
    alphanumeric character from beyond ASCII, which line 43 keeps. *)
Theorem sanitize_filename_bounded_words :
  forall (rt : PyRuntime) (s : pystr),
    exists out,
      sanitize_filename (JStr s) = Ok out /\
      length out <= 50 /\
      forallb name_char out = true.
Proof.
  intros rt [|c s].
  - exists (lit "unknown_session"). repeat split.
    + vm_compute. lia.
  - eexists. split; [unfold sanitize_filename; rewrite truthy_text;
                     reflexivity|].
    split; [apply firstn_le_length|].
    apply forallb_forall. intros d Hd. apply is_word_name_char.
    revert d Hd. apply Forall_forall. apply firstn_Forall.
    apply strip_underscores_Forall. apply collapse_runs_words.
    apply remove_special_kept.
Qed.

(** The claim C2 with the character set [A-Za-z0-9_] alone fails on the
    one-letter text U+00E9: [\w] takes the letter for a word character,
    so it comes back unchanged. *)
Lemma sanitize_filename_keeps_accented_letter :
  @sanitize_filename sample_runtime (JStr [233%N]) = Ok [233%N] /\
  forallb ascii_word [233%N] = false.
Proof. split; reflexivity. Qed.

(** C8, as the code has it.  For every text [x] of [A-Za-z0-9_] with at
    most 50 characters whose sanitized form is not empty, sanitizing
    twice gives what sanitizing once gives. *)
Theorem sanitize_filename_idempotent_on_clean :
  forall (rt : PyRuntime) (x : pystr),
    clean_text x = true ->
    length x <= 50 ->
    sanitize_filename (JStr x) <> Ok [] ->
    (exists y, sanitize_filename (JStr x) = Ok y) /\
    (y <- sanitize_filename (JStr x) ;; sanitize_filename (JStr y))%result
      = sanitize_filename (JStr x).
Proof.
  intros rt [|c x] Hclean Hlen Hne.
  - split; [eexists|]; reflexivity.
  - rewrite (sanitize_filename_clean c x Hclean Hlen) in *.
    split; [eexists; reflexivity|]. cbn [rbind].
    assert (Hy : clean_text (strip_underscores (c :: x)) = true)
      by now apply strip_underscores_clean.
    assert (Hly : length (strip_underscores (c :: x)) <= 50).
    { etransitivity; [apply strip_underscores_length | exact Hlen]. }
    pose proof (strip_underscores_idempotent (c :: x)) as Hidem.
    destruct (strip_underscores (c :: x)) as [|d y]; [now elim Hne|].
    rewrite (sanitize_filename_clean d y Hy Hly). now rewrite Hidem.
Qed.

Lemma sanitize_filename_idempotent_on_clean_witness :
  (exists y, @sanitize_filename sample_runtime (JStr (lit "_Fix_the_bug_"))
             = Ok y) /\
  (y <- @sanitize_filename sample_runtime (JStr (lit "_Fix_the_bug_")) ;;
   @sanitize_filename sample_runtime (JStr y))%result
    = @sanitize_filename sample_runtime (JStr (lit "_Fix_the_bug_")).
Proof.
  apply (sanitize_filename_idempotent_on_clean sample_runtime).
  - reflexivity.
  - vm_compute. lia.
  - vm_compute. discriminate.
Defined.

(** The claim C8 for every clean text of at most 50 characters fails on
    the text [_]: it is sanitized to the empty text, and the empty text
    is sanitized to [unknown_session]. *)
Lemma sanitize_filename_not_idempotent_on_underscore :
  clean_text (lit "_") = true /\
  length (lit "_") <= 50 /\
  @sanitize_filename sample_runtime (JStr (lit "_")) = Ok [] /\
  (y <- @sanitize_filename sample_runtime (JStr (lit "_")) ;;
   @sanitize_filename sample_runtime (JStr y))%result
    = Ok (lit "unknown_session").
Proof. repeat split. vm_compute. lia. Qed.

(* ----------------------------------------------------------------- *)
(** ** The run of the hook *)

Section UsageRecorderFacts.
Context {rt : PyRuntime}.

Ltac run_steps :=
  unfold prepare_entry, append_entry, makedirs, open_append, write,
    datetime_now, try_except, bind, emit, ret, lift, raise, sys_exit;
  simpl.

(** The append, case by case. *)
Lemma append_entry_spec : forall E p entry st,
  append_entry E p entry st =
  match open_error E p with
  | Some e =>
      ({| ticks := ticks st;
          trace := trace st ++ [EvOpenAppend p; EvStderr (diagnostic e)] |},
       Exited 1%Z)
  | None =>
      match write_error E p (json_dumps entry ++ [newline]) with
      | Some e =>
          ({| ticks := ticks st;
              trace := trace st ++
                [EvOpenAppend p; EvWrite p (json_dumps entry ++ [newline]);
                 EvStderr (diagnostic e)] |},
           Exited 1%Z)
      | None =>
          ({| ticks := ticks st;
              trace := trace st ++
                [EvOpenAppend p; EvWrite p (json_dumps entry ++ [newline])] |},
           Done tt)
      end
  end.
Proof.
  intros E p entry st. run_steps.
  destruct (open_error E p) as [e|]; simpl.
  - now rewrite <- app_assoc.
  - destruct (write_error E p _) as [e|]; simpl;
      now rewrite <- !app_assoc.
Qed.

(** The steps before the append: they look at the history file at most,
    then create the directory; they end with an exception or with the
    path of the output file, never with [sys.exit]. *)
Lemma prepare_entry_spec : forall E v st,
  exists evs,
    forallb (is_history_event E) evs = true /\
    ((trace (fst (prepare_entry E v st)) = trace st ++ evs /\
      exists e, snd (prepare_entry E v st) = Raised e)
     \/
     (exists dir,
        cwd E = Ok dir /\
        trace (fst (prepare_entry E v st)) =
          trace st ++ evs ++ [EvMakedirs (analytics_dir_of dir)] /\
        match makedirs_error E (analytics_dir_of dir) with
        | Some e => snd (prepare_entry E v st) = Raised e
        | None => exists name entry,
            snd (prepare_entry E v st) =
              Done (path_join (analytics_dir_of dir) name, entry)
        end)).
Proof.
  intros E v st.
  destruct v as [| | | | | |fields];
    try (exists []; split; [reflexivity|]; left; run_steps;
         rewrite app_nil_r; split; [reflexivity | eexists; reflexivity]).
  set (sid := match assoc (lit "session_id") fields with
              | Some x => x | None => JNull end).
  destruct (truthy sid) eqn:Hsid.
  - destruct (get_session_prompt_returns E sid st)
      as (prompt & evs & Hget & Hevs).
    exists evs. split; [assumption|].
    run_steps. fold sid. rewrite Hsid, Hget.
    destruct (sanitize_filename prompt) as [name|e]; simpl;
      [|left; split; [reflexivity | eexists; reflexivity]].
    destruct (cwd E) as [dir|e]; simpl;
      [|left; split; [reflexivity | eexists; reflexivity]].
    right. exists dir. split; [reflexivity|].
    destruct (makedirs_error E (analytics_dir_of dir)) as [e|]; simpl;
      rewrite <- app_assoc; (split; [reflexivity|]);
      [reflexivity | eexists; eexists; reflexivity].
  - exists []. split; [reflexivity|].
    run_steps. fold sid. rewrite Hsid. simpl.
    destruct (cwd E) as [dir|e]; simpl;
      [|left; rewrite app_nil_r; split; [reflexivity | eexists; reflexivity]].
    right. exists dir. split; [reflexivity|].
    destruct (makedirs_error E (analytics_dir_of dir)) as [e|]; simpl;
      (split; [reflexivity|]);
      [reflexivity | eexists; eexists; reflexivity].
Qed.

Lemma early_of_history : forall E evs,
  forallb (is_history_event E) evs = true ->
  forallb (is_early_event E) evs = true.
Proof.
  intros E evs H. apply forallb_forall. intros ev Hin.
  rewrite forallb_forall in H. specialize (H ev Hin).
  destruct ev; simpl in *; auto.
Qed.

Lemma early_not_failed : forall E evs,
  forallb (is_early_event E) evs = true ->
  existsb (is_failed_append E) evs = false.
Proof.
  intros E evs H. induction evs as [|ev evs IH]; simpl in *; [reflexivity|].
  apply andb_true_iff in H as [Hev Hevs]. rewrite (IH Hevs).
  destruct ev; simpl in *; try reflexivity; discriminate.
Qed.

Lemma early_not_output : forall E evs,
  forallb (is_early_event E) evs = true ->
  forallb (fun ev => negb (is_output_event ev) && negb (is_stderr_event ev))
    evs = true.
Proof.
  intros E evs H. apply forallb_forall. intros ev Hin.
  rewrite forallb_forall in H. specialize (H ev Hin).
  destruct ev; simpl in *; auto.
Qed.

Lemma main_run_kind : forall E,
  run_kind E (trace (fst (main E initial_state)))
    (snd (main E initial_state)).
Proof.
  intros E. unfold main.
  destruct (json_loads (stdin_text E)) as [v|e] eqn:Hload.
  - unfold bind.
    destruct (prepare_entry_spec E v initial_state)
      as (evs & Hevs & [[Htr (e & Hr)] | (dir & Hcwd & Htr & Hmk)]).
    + destruct (prepare_entry E v initial_state) as [st1 o1].
      simpl in *. subst o1. simpl. rewrite Htr.
      apply RunEarlyFailure. now apply early_of_history.
    + assert (Hearly : forallb (is_early_event E)
                         (evs ++ [EvMakedirs (analytics_dir_of dir)]) = true).
      { rewrite forallb_app, (early_of_history _ _ Hevs). reflexivity. }
      destruct (prepare_entry E v initial_state) as [st1 o1].
      simpl in Htr, Hmk.
      destruct (makedirs_error E (analytics_dir_of dir)) as [e|].
      * subst o1. simpl. rewrite Htr. now apply RunEarlyFailure.
      * destruct Hmk as (name & entry & ->).
        rewrite append_entry_spec. cbn [fst snd].
        destruct (open_error E _) as [e|] eqn:Hopen; cbn [fst snd trace];
          rewrite Htr.
        -- now apply RunOpenFailure.
        -- destruct (write_error E _ _) as [e|] eqn:Hwrite;
             cbn [fst snd trace]; rewrite ?Htr.
           ++ now apply RunWriteFailure.
           ++ now apply RunAppended.
  - destruct e; simpl;
      try (apply RunEarlyFailure; reflexivity).
    now apply RunNoInput.
Qed.

End UsageRecorderFacts.

(* ----------------------------------------------------------------- *)
(** ** The fallback file name *)

Lemma decimal_year_digits : forall y,
  (1000 <= y <= 9999)%N ->
  exists a b c d,
    decimal y = [a; b; c; d] /\
    is_digit a = true /\ is_digit b = true /\
    is_digit c = true /\ is_digit d = true.
Proof.
  intros y Hy.
  assert (Hall :
    forallb (fun y => match decimal y with
                      | [a; b; c; d] =>
                          is_digit a && is_digit b && is_digit c && is_digit d
                      | _ => false
                      end)
      (map N.of_nat (seq (N.to_nat 1000) (N.to_nat 9000))) = true)
    by (vm_compute; reflexivity).
  rewrite forallb_forall in Hall. specialize (Hall y).
  assert (Hin : In y (map N.of_nat (seq (N.to_nat 1000) (N.to_nat 9000)))).
  { apply in_map_iff. exists (N.to_nat y). split; [apply N2Nat.id|].
    apply in_seq. lia. }
  specialize (Hall Hin).
  destruct (decimal y) as [|a [|b [|c [|d [|]]]]]; try discriminate.
  apply andb_true_iff in Hall as [Hall Hd].
  apply andb_true_iff in Hall as [Hall Hc].
  apply andb_true_iff in Hall as [Ha Hb].
  exists a, b, c, d. auto.
Qed.

Lemma two_digits : forall n,
  (n <= 99)%N ->
  exists a b,
    zfill 2 (decimal n) = [a; b] /\ is_digit a = true /\ is_digit b = true.
Proof.
  intros n Hn.
  assert (Hall :
    forallb (fun n => match zfill 2 (decimal n) with
                      | [a; b] => is_digit a && is_digit b
                      | _ => false
                      end)
      (map N.of_nat (seq 0 100)) = true)
    by (vm_compute; reflexivity).
  rewrite forallb_forall in Hall. specialize (Hall n).
  assert (Hin : In n (map N.of_nat (seq 0 100))).
  { apply in_map_iff. exists (N.to_nat n). split; [apply N2Nat.id|].
    apply in_seq. lia. }
  specialize (Hall Hin).
  destruct (zfill 2 (decimal n)) as [|a [|b [|]]]; try discriminate.
  apply andb_true_iff in Hall as [Ha Hb].
  exists a, b. auto.
Qed.

(** The name built on line 68 has the shape
    [tool_usage_YYYYMMDD_HHMMSS.jsonl]. *)
Lemma fallback_name_shape : forall d,
  four_digit_date d ->
  is_fallback_name
    (lit "tool_usage_" ++ strftime_stamp d ++ lit ".jsonl") = true.
Proof.
  intros d (Hy & Hm & Hd & Hh & Hmi & Hs).
  destruct (decimal_year_digits (year d) Hy)
    as (y1 & y2 & y3 & y4 & Ey & ? & ? & ? & ?).
  destruct (two_digits (month d)) as (m1 & m2 & Em & ? & ?); [lia|].
  destruct (two_digits (day d)) as (d1 & d2 & Ed & ? & ?); [lia|].
  destruct (two_digits (hour d)) as (h1 & h2 & Eh & ? & ?); [lia|].
  destruct (two_digits (minute d)) as (n1 & n2 & En & ? & ?); [lia|].
  destruct (two_digits (second d)) as (s1 & s2 & Es & ? & ?); [lia|].
  unfold strftime_stamp. rewrite Ey, Em, Ed, Eh, En, Es.
  unfold is_fallback_name. cbn.
  repeat match goal with H : is_digit _ = true |- _ => rewrite H; clear H end.
  reflexivity.
Qed.

(* ----------------------------------------------------------------- *)
(** ** The usage recorder: how a run ends *)

Section UsageRecorderResults.
Context {rt : PyRuntime}.

(** When the directory cannot be created the exception leaves [main]. *)
Lemma main_makedirs_failure : forall E p e,
  In (EvMakedirs p) (trace (fst (main E initial_state))) ->
  makedirs_error E p = Some e ->
  snd (main E initial_state) = Raised e.
Proof.
  intros E p e. unfold main.
  destruct (json_loads (stdin_text E)) as [v|e0];
    [|destruct e0; simpl; intros []].
  unfold bind.
  assert (Hhist : forall evs, forallb (is_history_event E) evs = true ->
                              ~ In (EvMakedirs p) evs).
  { intros evs H Hin. rewrite forallb_forall in H.
    specialize (H _ Hin). discriminate. }
  destruct (prepare_entry_spec E v initial_state)
    as (evs & Hevs & [[Htr (e1 & Hr)] | (dir & Hcwd & Htr & Hmk)]);
    destruct (prepare_entry E v initial_state) as [st1 o1]; simpl in *.
  - subst o1. simpl. rewrite Htr. intros Hin. now apply Hhist in Hin.
  - destruct (makedirs_error E (analytics_dir_of dir)) as [e1|] eqn:Hm.
    + subst o1. simpl. rewrite Htr. intros Hin He.
      apply in_app_or in Hin as [Hin | [Hin | []]];
        [now apply Hhist in Hin|].
      inversion Hin; subst. congruence.
    + destruct Hmk as (name & entry & ->).
      rewrite append_entry_spec. intros Hin He.
      assert (Hp : p = analytics_dir_of dir).
      { destruct (open_error E _); [|destruct (write_error E _ _)];
          simpl in Hin; rewrite Htr in Hin;
          repeat (apply in_app_or in Hin as [Hin | Hin];
                  [try now apply Hhist in Hin|]);
          simpl in Hin;
          repeat (destruct Hin as [Hin | Hin]; try discriminate;
                  try contradiction);
          try (now inversion Hin);
          now apply Hhist in Hin. }
      subst p. congruence.
Qed.

End UsageRecorderResults.

(** C5, as the code has it.  When [json.load] rejects standard input
    with [JSONDecodeError], the run does nothing at all: it causes no
    event, so it creates no file and prints nothing, and it ends with
    status 0. *)
Theorem unparsable_input_is_silent_no_op :
  forall (rt : PyRuntime) E,
    json_loads (stdin_text E) = Raise JSONDecodeError ->
    run_hook E = ([], 0%Z).
Proof.
  intros rt E H. unfold run_hook, main. rewrite H. reflexivity.
Qed.

Lemma unparsable_input_is_silent_no_op_witness :
  @run_hook sample_runtime
    (unwritable_env payload_truncated (HistLines [line_fix_bug])) = ([], 0%Z).
Proof.
  apply (unparsable_input_is_silent_no_op sample_runtime).
  vm_compute. reflexivity.
Defined.

(** The claim C5 for every document that is no JSON fails on a document
    of 2000 opening brackets: [json.load] raises [RecursionError] on it,
    line 53 catches [JSONDecodeError] only, and the process ends with a
    traceback on the error stream and status 1. *)
Lemma nested_brackets_are_not_silent :
  @json_loads nested_runtime payload_nested = Raise RecursionError /\
  @run_hook nested_runtime (sample_env payload_nested HistMissing)
  = ([EvStderr (@traceback nested_runtime RecursionError)], 1%Z).
Proof. split; vm_compute; reflexivity. Qed.

(** C6, as the code has it.  [main] ends through [sys.exit(1)] exactly
    when an attempt to open or to write the output file failed, and then
    the last thing it did was to print its diagnostic to the error
    stream; it calls [sys.exit] with no other status; and when [main]
    returns, the process ends with status 0 and has printed nothing. *)
Theorem append_failure_is_the_reported_failure :
  forall (rt : PyRuntime) E,
    (existsb (is_failed_append E) (trace (fst (main E initial_state))) = true
     <-> snd (main E initial_state) = Exited 1%Z) /\
    (snd (main E initial_state) = Exited 1%Z ->
     snd (run_hook E) = 1%Z /\
     exists evs e, fst (run_hook E) = evs ++ [EvStderr (diagnostic e)]) /\
    (forall code, snd (main E initial_state) = Exited code -> code = 1%Z) /\
    (snd (main E initial_state) = Done tt ->
     snd (run_hook E) = 0%Z /\
     forallb (fun ev => negb (is_stderr_event ev)) (fst (run_hook E)) = true).
Proof.
  intros rt E. pose proof (main_run_kind E) as Hk. unfold run_hook.
  destruct (main E initial_state) as [st o]. simpl in *.
  assert (Hquiet : forall evs, forallb (is_early_event E) evs = true ->
            forallb (fun ev => negb (is_stderr_event ev)) evs = true).
  { intros evs H. apply forallb_forall. intros ev Hin.
    rewrite forallb_forall in H. specialize (H ev Hin).
    destruct ev; simpl in *; auto. }
  inversion Hk as [Hl Ht Ho | evs e He Ht Ho | evs p e He Hop Ht Ho
                   | evs p text e He Hop Hwr Ht Ho
                   | evs p text He Hop Hwr Ht Ho]; subst o; simpl.
  - repeat split; intros; try discriminate; auto.
  - rewrite (early_not_failed _ _ He).
    repeat split; intros; try discriminate; auto.
  - rewrite existsb_app, (early_not_failed _ _ He). simpl. rewrite Hop.
    repeat split; intros; try discriminate; auto;
      try match goal with H : Exited _ = Exited _ |- _ =>
            now inversion H end.
    exists (evs ++ [EvOpenAppend p]), e. now rewrite <- app_assoc.
  - rewrite existsb_app, (early_not_failed _ _ He). simpl.
    rewrite Hop, Hwr. simpl.
    repeat split; intros; try discriminate; auto;
      try match goal with H : Exited _ = Exited _ |- _ =>
            now inversion H end.
    exists (evs ++ [EvOpenAppend p; EvWrite p text]), e.
    now rewrite <- app_assoc.
  - rewrite existsb_app, (early_not_failed _ _ He). simpl.
    rewrite Hop, Hwr. simpl.
    repeat split; intros; try discriminate; auto.
    rewrite forallb_app, (Hquiet _ He). reflexivity.
Qed.

Lemma append_failure_is_the_reported_failure_witness :
  snd (@run_hook sample_runtime
         (unwritable_env payload_session (HistLines [line_fix_bug]))) = 1%Z /\
  exists evs e,
    fst (@run_hook sample_runtime
           (unwritable_env payload_session (HistLines [line_fix_bug])))
    = evs ++ [EvStderr (@diagnostic sample_runtime e)].
Proof.
  apply (append_failure_is_the_reported_failure sample_runtime
           (unwritable_env payload_session (HistLines [line_fix_bug]))).
  vm_compute. reflexivity.
Defined.

(** The claim C6 that every run but one with a failed append ends with
    status 0 fails on the payload [[]]: [input_data.get] raises
    [AttributeError] on a list, nothing catches it, and the process ends
    with a traceback and status 1 before any file is touched. *)
Lemma array_payload_exits_nonzero :
  @run_hook sample_runtime (sample_env payload_array HistMissing)
    = ([EvStderr (@traceback sample_runtime AttributeError)], 1%Z) /\
  existsb (is_failed_append (sample_env payload_array HistMissing))
    (fst (@run_hook sample_runtime (sample_env payload_array HistMissing)))
    = false.
Proof. split; vm_compute; reflexivity. Qed.

(** C3, as the code has it.  A failure during label resolution is
    absorbed: [get_session_prompt] always returns.  No other failure
    before the append is: a payload that is no JSON object makes line 57
    raise [AttributeError], a failure of [os.makedirs] raises too, and an
    exception raised there leaves [main] with no output file touched and
    no diagnostic printed by the hook; the process ends with the
    interpreter's traceback and status 1. *)
Theorem earlier_failures_leave_main :
  forall (rt : PyRuntime) E,
    (forall session_id st,
       exists v, snd (get_session_prompt E session_id st) = Done v) /\
    (forall v, json_loads (stdin_text E) = Ok v ->
               (forall fields, v <> JObj fields) ->
               snd (main E initial_state) = Raised AttributeError) /\
    (forall p e, In (EvMakedirs p) (trace (fst (main E initial_state))) ->
                 makedirs_error E p = Some e ->
                 snd (main E initial_state) = Raised e) /\
    (forall e, snd (main E initial_state) = Raised e ->
       forallb (fun ev => negb (is_output_event ev)
                          && negb (is_stderr_event ev))
         (trace (fst (main E initial_state))) = true /\
       run_hook E =
         (trace (fst (main E initial_state)) ++ [EvStderr (traceback e)],
          1%Z)).
Proof.
  intros rt E. repeat split.
  - intros sid st.
    destruct (get_session_prompt_returns E sid st) as (v & evs & H & _).
    exists v. now rewrite H.
  - intros v Hv Hobj. unfold main. rewrite Hv.
    destruct v; try reflexivity. now elim (Hobj fields).
  - apply main_makedirs_failure.
  - pose proof (main_run_kind E) as Hk.
    destruct (main E initial_state) as [st o]. simpl in *. subst o.
    inversion Hk; subst. now apply early_not_output with (E := E).
  - unfold run_hook. destruct (main E initial_state) as [st o].
    simpl in *. now subst o.
Qed.

Lemma earlier_failures_leave_main_witness :
  snd (@main sample_runtime (readonly_env payload_no_session HistMissing)
         initial_state) = Raised OSError.
Proof.
  apply (proj1 (proj2 (proj2
           (earlier_failures_leave_main sample_runtime
              (readonly_env payload_no_session HistMissing))))
           (lit "/work/.claude/analytics/tool_usage_history") OSError).
  - vm_compute. now left.
  - reflexivity.
Defined.

(** The claim C3 that such a failure is a silent no-op fails when the
    output directory cannot be created: the [OSError] of [os.makedirs]
    is not caught, the process prints a traceback and ends with
    status 1. *)
Lemma makedirs_failure_is_not_silent :
  @run_hook sample_runtime (readonly_env payload_no_session HistMissing)
  = ([ EvMakedirs (lit "/work/.claude/analytics/tool_usage_history");
       EvStderr (@traceback sample_runtime OSError) ],
     1%Z).
Proof. vm_compute. reflexivity. Qed.

Lemma decimal_year_reads_back : forall y,
  (1000 <= y <= 9999)%N ->
  exists a b c d,
    decimal y = [a; b; c; d] /\ decimal_value [a; b; c; d] = y.
Proof.
  intros y Hy.
  assert (Hall :
    forallb (fun y => match decimal y with
                      | [a; b; c; d] => (decimal_value [a; b; c; d] =? y)%N
                      | _ => false
                      end)
      (map N.of_nat (seq (N.to_nat 1000) (N.to_nat 9000))) = true)
    by (vm_compute; reflexivity).
  rewrite forallb_forall in Hall. specialize (Hall y).
  assert (Hin : In y (map N.of_nat (seq (N.to_nat 1000) (N.to_nat 9000)))).
  { apply in_map_iff. exists (N.to_nat y). split; [apply N2Nat.id|].
    apply in_seq. lia. }
  specialize (Hall Hin).
  destruct (decimal y) as [|a [|b [|c [|d [|]]]]]; try discriminate.
  apply N.eqb_eq in Hall. exists a, b, c, d. auto.
Qed.

Lemma two_digits_read_back : forall n,
  (n <= 99)%N ->
  exists a b, zfill 2 (decimal n) = [a; b] /\ decimal_value [a; b] = n.
Proof.
  intros n Hn.
  assert (Hall :
    forallb (fun n => match zfill 2 (decimal n) with
                      | [a; b] => (decimal_value [a; b] =? n)%N
                      | _ => false
                      end)
      (map N.of_nat (seq 0 100)) = true)
    by (vm_compute; reflexivity).
  rewrite forallb_forall in Hall. specialize (Hall n).
  assert (Hin : In n (map N.of_nat (seq 0 100))).
  { apply in_map_iff. exists (N.to_nat n). split; [apply N2Nat.id|].
    apply in_seq. lia. }
  specialize (Hall Hin).
  destruct (zfill 2 (decimal n)) as [|a [|b [|]]]; try discriminate.
  apply N.eqb_eq in Hall. exists a, b. auto.
Qed.

(** The digits of the name built on line 68 read back as the year, the
    month, the day, the hour, the minute and the second of the clock
    reading they were made from. *)
Lemma fallback_name_stamp : forall d,
  four_digit_date d ->
  stamp_of_name (lit "tool_usage_" ++ strftime_stamp d ++ lit ".jsonl")
  = (year d, month d, day d, hour d, minute d, second d).
Proof.
  intros d (Hy & Hm & Hd & Hh & Hmi & Hs).
  destruct (decimal_year_reads_back (year d) Hy)
    as (y1 & y2 & y3 & y4 & Ey & Vy).
  destruct (two_digits_read_back (month d)) as (m1 & m2 & Em & Vm); [lia|].
  destruct (two_digits_read_back (day d)) as (d1 & d2 & Ed & Vd); [lia|].
  destruct (two_digits_read_back (hour d)) as (h1 & h2 & Eh & Vh); [lia|].
  destruct (two_digits_read_back (minute d)) as (n1 & n2 & En & Vn); [lia|].
  destruct (two_digits_read_back (second d)) as (s1 & s2 & Es & Vs); [lia|].
  unfold strftime_stamp. rewrite Ey, Em, Ed, Eh, En, Es.
  unfold stamp_of_name. cbn -[decimal_value].
  now rewrite Vy, Vm, Vd, Vh, Vn, Vs.
Qed.

(** C7.  When the payload is an object without a [session_id] key, the
    run never looks at the history file, and the one output file it may
    open is named [tool_usage_YYYYMMDD_HHMMSS.jsonl], where the fourteen
    digits are the year, month, day, hour, minute and second of the
    clock as the run first reads it; it does open that file whenever the
    working directory is known and the output directory can be made. *)
Theorem no_session_id_uses_fallback_name :
  forall (rt : PyRuntime) E fields,
    json_loads (stdin_text E) = Ok (JObj fields) ->
    assoc (lit "session_id") fields = None ->
    four_digit_date (clock E 0) ->
    exists name,
      is_fallback_name name = true /\
      stamp_of_name name =
        (year (clock E 0), month (clock E 0), day (clock E 0),
         hour (clock E 0), minute (clock E 0), second (clock E 0)) /\
      forallb (fun ev => negb (is_history_event E ev)) (fst (run_hook E))
        = true /\
      (forall p, In (EvOpenAppend p) (fst (run_hook E)) ->
         exists dir, cwd E = Ok dir /\
                     p = path_join (analytics_dir_of dir) name) /\
      (forall dir, cwd E = Ok dir ->
         makedirs_error E (analytics_dir_of dir) = None ->
         In (EvOpenAppend (path_join (analytics_dir_of dir) name))
            (fst (run_hook E))).
Proof.
  intros rt E fields Hload Hkey Hdate.
  exists (lit "tool_usage_" ++ strftime_stamp (clock E 0) ++ lit ".jsonl").
  split; [now apply fallback_name_shape|].
  split; [now apply fallback_name_stamp|].
  unfold run_hook, main. rewrite Hload.
  unfold bind, prepare_entry, bind, lift, dict_get. rewrite Hkey. simpl.
  unfold makedirs, datetime_now, bind, emit, ret, raise. simpl.
  destruct (cwd E) as [dir|e]; simpl.
  2:{ repeat split; try reflexivity.
      - intros p [H|[]]; discriminate.
      - intros dir H; discriminate. }
  destruct (makedirs_error E (analytics_dir_of dir)) as [e|] eqn:Hmk; simpl.
  { repeat split; try reflexivity.
    - intros p [H|[H|[]]]; discriminate.
    - intros dir' H1 H2. inversion H1; subst. congruence. }
  rewrite append_entry_spec. simpl.
  destruct (open_error E _) as [e|]; simpl;
    [|destruct (write_error E _ _) as [e|]; simpl];
    (repeat split; try reflexivity;
     [ intros p Hin;
       repeat (destruct Hin as [Hin|Hin]; try discriminate;
               try contradiction);
       inversion Hin; subst; exists dir; auto
     | intros dir' H1 H2; inversion H1; subst; right; now left ]).
Qed.

Lemma no_session_id_uses_fallback_name_witness :
  exists name,
    is_fallback_name name = true /\
    stamp_of_name name = (2024, 11, 30, 23, 59, 7)%N /\
    forallb (fun ev => negb (is_history_event
                               (ticking_env payload_no_session
                                  (HistLines [line_fix_bug])) ev))
      (fst (@run_hook sample_runtime
              (ticking_env payload_no_session (HistLines [line_fix_bug]))))
      = true /\
    (forall p,
       In (EvOpenAppend p)
          (fst (@run_hook sample_runtime
                  (ticking_env payload_no_session (HistLines [line_fix_bug]))))
       -> exists dir, Ok (lit "/work") = Ok dir /\
                      p = path_join (analytics_dir_of dir) name) /\
    (forall dir, Ok (lit "/work") = Ok dir ->
       @None exn = None ->
       In (EvOpenAppend (path_join (analytics_dir_of dir) name))
          (fst (@run_hook sample_runtime
                  (ticking_env payload_no_session (HistLines [line_fix_bug]))))).
Proof.
  apply (no_session_id_uses_fallback_name sample_runtime
           (ticking_env payload_no_session (HistLines [line_fix_bug]))
           [ (lit "tool_name", JStr (lit "Bash"));
             (lit "tool_input", JObj [ (lit "cmd", JStr (lit "ls")) ]) ]).
  - vm_compute. reflexivity.
  - vm_compute. reflexivity.
  - unfold four_digit_date. simpl. lia.
Defined.

(* ----------------------------------------------------------------- *)
(** ** The worked example of the specification *)

Example run_fix_the_bug :
  @run_hook sample_runtime
    (sample_env payload_session (HistLines [line_fix_bug])) =
  ([ EvExists (lit "/home/user/.claude/history.jsonl");
     EvOpenRead (lit "/home/user/.claude/history.jsonl");
     EvMakedirs (lit "/work/.claude/analytics/tool_usage_history");
     EvOpenAppend
       (lit "/work/.claude/analytics/tool_usage_history/session_abc123_Fix_the_bug.jsonl");
     EvWrite
       (lit "/work/.claude/analytics/tool_usage_history/session_abc123_Fix_the_bug.jsonl")
       (jtext "{'timestamp': '2024-01-02T03:04:05', 'tool': 'Bash', 'input': {'cmd': 'ls'}, 'result': {'ok': true}, 'session_id': 'abc123'}"
          ++ [newline]) ],
   0%Z).
Proof. vm_compute. reflexivity. Qed.

(* ================================================================= *)
(** * Further properties *)


(* ----------------------------------------------------------------- *)
(** ** More on the scan of the history file *)

Section SessionLabelerMore.
Context {rt : PyRuntime}.


Lemma get_session_prompt_with_history : forall E sid st lines,
  snd (get_session_prompt (with_history E (HistLines lines)) sid st) =
  Done (match scan_lines sid scan_init lines with
        | Ok s => first_prompt s
        | Raise _ => JNull
        end).
Proof. intros E sid st lines. now apply get_session_prompt_lines. Qed.

Lemma scan_lines_filter_decodes : forall sid lines st,
  scan_lines sid st (filter decodes lines) = scan_lines sid st lines.
Proof.
  intros sid lines. induction lines as [|l lines IH]; intros st; simpl.
  - reflexivity.
  - unfold decodes at 1.
    destruct (json_loads l) as [v|e] eqn:Hl.
    + simpl. destruct (scan_line sid st l); simpl; [apply IH | reflexivity].
    + destruct e; simpl;
        try (destruct (scan_line sid st l); simpl; [apply IH | reflexivity]).
      rewrite (scan_line_decode_error _ _ _ Hl). simpl. apply IH.
Qed.

(** One turn either leaves the state alone or takes the display value of
    the matching record on its line. *)
Lemma scan_line_result : forall sid st line st',
  as_number (min_timestamp st) <> None ->
  scan_line sid st line = Ok st' ->
  st' = st \/
  exists fields, record_fields sid line = Some fields /\
                 first_prompt st' = display_of fields.
Proof.
  intros sid st line st' Hm H.
  destruct (as_number (min_timestamp st)) as [m|] eqn:Em; [|congruence].
  destruct (record_fields sid line) as [fields|] eqn:Hrec.
  - destruct (as_number (timestamp_of fields)) as [t|] eqn:Et.
    + rewrite (scan_line_record _ _ _ _ _ _ Hrec Et Em) in H.
      inversion H; subst. destruct (num_ltb t m); [|now left].
      right. now exists fields.
    + rewrite (scan_line_type_error _ _ _ _ _ Hrec Et Em) in H. discriminate.
  - left. eapply scan_line_no_match; eassumption.
Qed.

Lemma scan_lines_provenance : forall sid lines st st',
  as_number (min_timestamp st) <> None ->
  scan_lines sid st lines = Ok st' ->
  first_prompt st' = first_prompt st \/
  exists line fields, In line lines /\
                      record_fields sid line = Some fields /\
                      first_prompt st' = display_of fields.
Proof.
  intros sid lines. induction lines as [|l lines IH]; intros st st' Hm H.
  - simpl in H. inversion H. now left.
  - simpl in H. destruct (scan_line sid st l) as [s1|e] eqn:E1;
      simpl in H; [|discriminate].
    assert (Hm1 : as_number (min_timestamp s1) <> None)
      by (eapply scan_line_keeps_number; eassumption).
    destruct (IH s1 st' Hm1 H) as [Hsame | (line & fields & Hin & Hrec & Hd)].
    + destruct (scan_line_result _ _ _ _ Hm E1) as [-> | (fields & Hrec & Hd)].
      * now left.
      * right. exists l, fields. rewrite Hsame. repeat split; auto. now left.
    + right. exists line, fields. repeat split; auto. now right.
Qed.


(** Against a text, [==] holds for that very text only. *)
Lemma py_eq_text : forall v s, py_eq v (JStr s) = true <-> v = JStr s.
Proof.
  intros v s. split.
  - destruct v; simpl; try discriminate.
    intros H. apply str_eqb_eq in H. now subst.
  - intros ->. simpl. apply str_eqb_refl.
Qed.

End SessionLabelerMore.

(** X7.  A line that does not parse takes no part in the scan: the
    history file without its unparsable lines gives the same answer. *)
Theorem unparsable_lines_are_skipped :
  forall (rt : PyRuntime) E session_id st lines,
    snd (get_session_prompt
           (with_history E (HistLines (filter decodes lines)))
           session_id st) =
    snd (get_session_prompt (with_history E (HistLines lines))
           session_id st).
Proof.
  intros rt E sid st lines.
  rewrite !get_session_prompt_with_history.
  now rewrite scan_lines_filter_decodes.
Qed.

(** X8.  Whatever the history file holds, [get_session_prompt] returns
    [None] or the display value of a record of that very session that
    stands in the file; it never hands out the prompt of another
    session. *)
Theorem returned_prompt_belongs_to_session :
  forall (rt : PyRuntime) E session_id st,
    exists v,
      snd (get_session_prompt E session_id st) = Done v /\
      (v = JNull \/
       exists lines line fields,
         history E = HistLines lines /\ In line lines /\
         record_fields session_id line = Some fields /\
         v = display_of fields).
Proof.
  intros rt E sid st.
  destruct (history E) as [|e|lines] eqn:Hh.
  - exists JNull. split; [|now left].
    unfold get_session_prompt, path_exists_history, bind, emit, ret.
    now rewrite Hh.
  - exists JNull. split; [|now left].
    unfold get_session_prompt, path_exists_history, open_history, try_except,
      bind, emit, ret, raise.
    now rewrite Hh.
  - rewrite (get_session_prompt_lines E sid st lines Hh).
    eexists. split; [reflexivity|].
    destruct (scan_lines sid scan_init lines) as [s|e] eqn:Hs; [|now left].
    apply scan_lines_provenance in Hs; [|simpl; discriminate].
    destruct Hs as [Hs | (line & fields & Hin & Hrec & Hd)].
    + left. exact Hs.
    + right. exists lines, line, fields. auto.
Qed.





(** X11.  Against a text session identifier a record matches only when
    its [sessionId] is that very text.  Any other JSON object (no
    [sessionId], another text, a number) leaves the scan as it was,
    whatever it carries as a timestamp. *)
Theorem other_records_leave_scan_alone :
  forall (rt : PyRuntime) sid st line fields,
    json_loads line = Ok (JObj fields) ->
    assoc (lit "sessionId") fields <> Some (JStr sid) ->
    scan_line (JStr sid) st line = Ok st.
Proof.
  intros rt sid st line fields Hl Hsid.
  apply (scan_line_other _ _ _ fields Hl).
  unfold record_fields. rewrite Hl.
  destruct (py_eq _ (JStr sid)) eqn:Heq; [|reflexivity].
  exfalso. apply py_eq_text in Heq.
  destruct (assoc (lit "sessionId") fields); [|discriminate]. congruence.
Qed.

Lemma other_records_leave_scan_alone_witness :
  @scan_line sample_runtime (JStr (lit "abc123")) scan_init line_other_session
  = Ok scan_init.
Proof.
  apply (other_records_leave_scan_alone sample_runtime (lit "abc123")
           scan_init line_other_session
           [ (lit "sessionId", JStr (lit "zzz"));
             (lit "timestamp", JInt 1);
             (lit "display", JStr (lit "Elsewhere")) ]).
  - vm_compute. reflexivity.
  - vm_compute. discriminate.
Defined.

(* ----------------------------------------------------------------- *)
(** ** More on sanitize_filename *)

Section SanitizerMore.
Context {rt : PyRuntime}.

Lemma collapse_runs_length : forall text in_run,
  length (collapse_runs in_run text) <= length text.
Proof.
  induction text as [|c rest IH]; intros in_run; simpl; [lia|].
  destruct (is_separator c); [destruct in_run|]; simpl;
    try (specialize (IH true); lia); specialize (IH false); lia.
Qed.

Lemma remove_special_length : forall text,
  length (remove_special text) <= length text.
Proof. intros text. apply filter_length_le. Qed.

Lemma cleaned_length : forall text,
  length (strip_underscores (collapse_runs false (remove_special text)))
  <= length text.
Proof.
  intros text.
  etransitivity; [apply strip_underscores_length|].
  etransitivity; [apply collapse_runs_length|].
  apply remove_special_length.
Qed.

Lemma strip_underscores_ends : forall text,
  no_lead (strip_underscores text) /\ no_trail (strip_underscores text).
Proof.
  intros text. unfold strip_underscores, no_trail.
  set (a := lstrip_underscores text).
  set (b := lstrip_underscores (rev a)).
  assert (Ha : no_lead a) by apply lstrip_underscores_no_lead.
  assert (Hb : no_lead b) by apply lstrip_underscores_no_lead.
  destruct (lstrip_underscores_suffix (rev a)) as [p Hp]. fold b in Hp.
  assert (Hrev : a = rev b ++ rev p).
  { rewrite <- rev_app_distr, <- Hp. now rewrite rev_involutive. }
  rewrite Hrev in Ha. apply no_lead_prefix in Ha.
  split; [assumption|]. now rewrite rev_involutive.
Qed.

Lemma firstn_no_lead : forall n text, no_lead text -> no_lead (firstn n text).
Proof. intros [|n] [|c text] H; simpl in *; auto. Qed.

Lemma strip_underscores_fixed : forall text,
  no_lead text -> no_trail text -> strip_underscores text = text.
Proof.
  intros text Hl Ht. unfold strip_underscores, no_trail in *.
  rewrite (lstrip_underscores_fixed _ Hl), (lstrip_underscores_fixed _ Ht).
  apply rev_involutive.
Qed.

Lemma no_lead_app : forall x y, x <> [] -> no_lead x -> no_lead (x ++ y).
Proof. intros [|c x] y Hx H; [congruence | exact H]. Qed.

Lemma collapse_runs_after_clean : forall x in_run rest,
  clean_text x = true -> x <> [] ->
  collapse_runs in_run (x ++ rest) = x ++ collapse_runs false rest.
Proof.
  unfold clean_text.
  induction x as [|c x IH]; intros in_run rest Hc Hx; [congruence|].
  simpl in *. apply andb_true_iff in Hc as [Hc Hcx].
  rewrite (ascii_word_not_separator _ Hc). f_equal.
  destruct x as [|d x]; [reflexivity|]. apply IH; [assumption|discriminate].
Qed.

Lemma collapse_runs_in_run : forall seps rest,
  forallb is_separator seps = true ->
  collapse_runs true (seps ++ rest) = collapse_runs true rest.
Proof.
  induction seps as [|c seps IH]; intros rest H; simpl in *; [reflexivity|].
  apply andb_true_iff in H as [Hc Hs]. rewrite Hc. now apply IH.
Qed.

Lemma remove_special_separators : forall seps,
  forallb is_separator seps = true -> remove_special seps = seps.
Proof.
  unfold remove_special.
  induction seps as [|c seps IH]; intros H; simpl in *; [reflexivity|].
  apply andb_true_iff in H as [Hc Hs].
  assert (Hk : is_word c || is_space c || (c =? hyphen)%N = true).
  { unfold is_separator in Hc. apply orb_true_iff in Hc as [Hc|Hc];
      rewrite Hc; now rewrite ?orb_true_r. }
  rewrite Hk. now rewrite IH.
Qed.

End SanitizerMore.

(** X4.  A sanitized name never begins with an underscore, and when the
    text has at most 50 characters, so that line 47 cuts nothing off, it
    does not end with one either. *)
Theorem sanitized_name_has_no_outer_underscore :
  forall (rt : PyRuntime) (s : pystr),
    exists out,
      sanitize_filename (JStr s) = Ok out /\
      no_lead out /\
      (length s <= 50 -> no_trail out).
Proof.
  intros rt [|c s].
  - exists (lit "unknown_session"). repeat split.
  - eexists. split; [unfold sanitize_filename; rewrite truthy_text;
                     reflexivity|].
    cbv zeta.
    destruct (strip_underscores_ends
                (collapse_runs false (remove_special (c :: s))))
      as [Hl Ht].
    split; [now apply firstn_no_lead|].
    intros Hlen. rewrite firstn_all2; [assumption|].
    etransitivity; [apply cleaned_length | exact Hlen].
Qed.

Lemma sanitized_name_has_no_outer_underscore_witness :
  exists out,
    @sanitize_filename sample_runtime (JStr (lit "__Fix the bug!! -")) = Ok out /\
    no_lead out /\ no_trail out.
Proof.
  destruct (sanitized_name_has_no_outer_underscore sample_runtime
              (lit "__Fix the bug!! -")) as (out & H & Hl & Ht).
  exists out. repeat split; auto. apply Ht. vm_compute. lia.
Defined.

(** X5.  On a text that is not empty the result is never longer than the
    text. *)
Theorem sanitizing_never_lengthens :
  forall (rt : PyRuntime) (c : codepoint) (s : pystr),
    exists out,
      sanitize_filename (JStr (c :: s)) = Ok out /\
      length out <= length (c :: s).
Proof.
  intros rt c s. eexists.
  split; [unfold sanitize_filename; rewrite truthy_text; reflexivity|].
  cbv zeta. rewrite length_firstn.
  etransitivity; [apply Nat.le_min_r | apply cleaned_length].
Qed.

(** X6.  Two clean words, neither with an underscore at its outer end,
    that stand apart by any run of hyphens and white space come out
    joined by exactly one underscore (and cut to 50 characters). *)
Theorem separators_become_one_underscore :
  forall (rt : PyRuntime) (x seps y : pystr),
    clean_text x = true -> clean_text y = true ->
    x <> [] -> y <> [] -> seps <> [] ->
    no_lead x -> no_trail y ->
    forallb is_separator seps = true ->
    sanitize_filename (JStr (x ++ seps ++ y))
    = Ok (firstn 50 (x ++ underscore :: y)).
Proof.
  intros rt x seps y Hx Hy Hxn Hyn Hsn Hlx Hty Hseps.
  unfold sanitize_filename.
  destruct x as [|c x]; [congruence|].
  cbn [app]. rewrite truthy_text. cbn [negb]. cbv zeta.
  change (c :: x ++ seps ++ y) with ((c :: x) ++ seps ++ y).
  assert (Hrem : remove_special ((c :: x) ++ seps ++ y)
                 = (c :: x) ++ seps ++ y).
  { unfold remove_special. rewrite !filter_app.
    fold (remove_special (c :: x)) (remove_special seps) (remove_special y).
    now rewrite (remove_special_clean _ Hx), (remove_special_clean _ Hy),
      (remove_special_separators _ Hseps). }
  rewrite Hrem.
  rewrite (collapse_runs_after_clean (c :: x) false _ Hx Hxn).
  destruct seps as [|d seps]; [congruence|].
  simpl in Hseps. apply andb_true_iff in Hseps as [Hd Hseps].
  cbn [app collapse_runs]. rewrite Hd.
  rewrite (collapse_runs_in_run _ _ Hseps), (collapse_runs_clean _ _ Hy).
  rewrite strip_underscores_fixed; [reflexivity | exact Hlx |].
  unfold no_trail in *. change (c :: x ++ underscore :: y)
    with ((c :: x) ++ underscore :: y).
  rewrite rev_app_distr. cbn [rev]. rewrite <- app_assoc.
  apply no_lead_app; [|assumption].
  intros Hrev. apply (f_equal (@rev codepoint)) in Hrev.
  rewrite rev_involutive in Hrev. now apply Hyn.
Qed.

Lemma separators_become_one_underscore_witness :
  @sanitize_filename sample_runtime
    (JStr (lit "Fix" ++ lit " - " ++ lit "bug"))
  = Ok (firstn 50 (lit "Fix" ++ underscore :: lit "bug")).
Proof.
  apply (separators_become_one_underscore sample_runtime);
    try reflexivity; discriminate.
Defined.

(* ----------------------------------------------------------------- *)
(** ** More on the run of the hook *)

Section UsageRecorderMore.
Context {rt : PyRuntime}.

(** Lines 56-86 on a payload that is a JSON object, step by step.
    [evs] are the looks at the history file and [prompt] is what line 60
    yields. *)
Lemma prepare_entry_object : forall E fields st,
  let sid := field_or_null fields (lit "session_id") in
  exists prompt evs,
    forallb (is_history_event E) evs = true /\
    (if truthy sid
     then get_session_prompt E sid st =
            ({| ticks := ticks st; trace := trace st ++ evs |}, Done prompt)
     else evs = [] /\ prompt = JNull) /\
    prepare_entry E (JObj fields) st =
    match sanitize_filename prompt with
    | Raise e => ({| ticks := ticks st; trace := trace st ++ evs |}, Raised e)
    | Ok label =>
        let name := if truthy sid then session_file_name sid label
                    else fallback_file_name (clock E (ticks st)) in
        let k := if truthy sid then ticks st else S (ticks st) in
        match cwd E with
        | Raise e => ({| ticks := k; trace := trace st ++ evs |}, Raised e)
        | Ok dir =>
            match makedirs_error E (analytics_dir_of dir) with
            | Some e =>
                ({| ticks := k;
                    trace := trace st ++ evs
                             ++ [EvMakedirs (analytics_dir_of dir)] |},
                 Raised e)
            | None =>
                ({| ticks := S k;
                    trace := trace st ++ evs
                             ++ [EvMakedirs (analytics_dir_of dir)] |},
                 Done (path_join (analytics_dir_of dir) name,
                       log_entry_of fields (clock E k)))
            end
        end
    end.
Proof.
  intros E fields st sid. subst sid. unfold field_or_null.
  set (sid := match assoc (lit "session_id") fields with
              | Some x => x | None => JNull end).
  destruct (truthy sid) eqn:Hsid.
  - destruct (get_session_prompt_returns E sid st)
      as (prompt & evs & Hget & Hevs).
    exists prompt, evs. split; [assumption|]. split; [assumption|].
    unfold prepare_entry, makedirs, datetime_now, bind, emit, ret, lift,
      raise. simpl. fold sid. rewrite Hsid, Hget.
    destruct (sanitize_filename prompt) as [label|e]; [|reflexivity].
    simpl. destruct (cwd E) as [dir|e]; [|reflexivity]. simpl.
    destruct (makedirs_error E (analytics_dir_of dir)) as [e|]; simpl;
      now rewrite <- app_assoc.
  - exists JNull, []. split; [reflexivity|]. split; [now split|].
    unfold prepare_entry, makedirs, datetime_now, bind, emit, ret, lift,
      raise. simpl. fold sid. rewrite Hsid. simpl.
    rewrite app_nil_r.
    destruct (cwd E) as [dir|e]; [|reflexivity]. simpl.
    destruct (makedirs_error E (analytics_dir_of dir)) as [e|]; reflexivity.
Qed.

Lemma history_events_not_output : forall E evs,
  forallb (is_history_event E) evs = true ->
  forall ev, In ev evs ->
    match ev with
    | EvExists _ | EvOpenRead _ => True
    | _ => False
    end.
Proof.
  intros E evs H ev Hin. rewrite forallb_forall in H. specialize (H ev Hin).
  destruct ev; simpl in *; auto; discriminate.
Qed.

Lemma path_join_plain : forall a b,
  a <> [] -> ends_with_slash a = false -> starts_with_slash b = false ->
  path_join a b = a ++ slash :: b.
Proof.
  intros a b Ha He Hb. unfold path_join. rewrite Hb, He.
  destruct a; [congruence | reflexivity].
Qed.

Lemma ends_with_slash_app : forall a b,
  b <> [] -> ends_with_slash (a ++ b) = ends_with_slash b.
Proof.
  intros a b Hb. unfold ends_with_slash. rewrite rev_app_distr.
  destruct (rev b) as [|c r] eqn:Hr; [|reflexivity].
  apply (f_equal (@rev codepoint)) in Hr. rewrite rev_involutive in Hr.
  now elim Hb.
Qed.

(** [analytics_dir_of] for a directory without a slash at its end. *)
Lemma analytics_dir_of_plain : forall dir,
  dir <> [] -> ends_with_slash dir = false ->
  analytics_dir_of dir = dir ++ lit "/.claude/analytics/tool_usage_history".
Proof.
  intros dir Hd Hs. unfold analytics_dir_of.
  rewrite (path_join_plain dir (lit ".claude") Hd Hs eq_refl).
  rewrite (path_join_plain (dir ++ slash :: lit ".claude") (lit "analytics"));
    [| destruct dir; discriminate
     | now rewrite ends_with_slash_app by discriminate
     | reflexivity ].
  rewrite path_join_plain;
    [| destruct dir; discriminate
     | now rewrite ends_with_slash_app by discriminate
     | reflexivity ].
  rewrite <- !app_assoc. reflexivity.
Qed.

End UsageRecorderMore.

Section UsageRecorderRuns.
Context {rt : PyRuntime}.

(** Where the events of a run that got as far as the append can be. *)
Lemma in_run_events : forall E evs d tail ev,
  forallb (is_history_event E) evs = true ->
  In ev ((evs ++ [EvMakedirs d]) ++ tail) ->
  match ev with
  | EvOpenAppend _ | EvWrite _ _ | EvStderr _ => In ev tail
  | _ => True
  end.
Proof.
  intros E evs d tail ev Hevs Hin.
  apply in_app_or in Hin as [Hin | Hin].
  - apply in_app_or in Hin as [Hin | [<- | []]]; [|exact I].
    pose proof (history_events_not_output E evs Hevs ev Hin) as H.
    destruct ev; auto; contradiction.
  - destruct ev; auto.
Qed.

(** A run on a JSON object, once the label is sanitized, the working
    directory is known and the output directory is there: the events are
    the looks at the history file, the creation of the directory and the
    append to the one file named on line 65 or 68. *)
Lemma object_run_events : forall E fields,
  json_loads (stdin_text E) = Ok (JObj fields) ->
  let sid := field_or_null fields (lit "session_id") in
  exists prompt evs,
    forallb (is_history_event E) evs = true /\
    (if truthy sid
     then snd (get_session_prompt E sid initial_state) = Done prompt
     else evs = [] /\ prompt = JNull) /\
    forall label dir,
      sanitize_filename prompt = Ok label ->
      cwd E = Ok dir ->
      makedirs_error E (analytics_dir_of dir) = None ->
      let name := if truthy sid then session_file_name sid label
                  else fallback_file_name (clock E 0) in
      let k := if truthy sid then 0 else 1 in
      let path := path_join (analytics_dir_of dir) name in
      let text := json_dumps (log_entry_of fields (clock E k)) ++ [newline] in
      exists tail,
        fst (run_hook E)
          = (evs ++ [EvMakedirs (analytics_dir_of dir)])
            ++ EvOpenAppend path :: tail /\
        forall ev, In ev tail ->
          ev = EvWrite path text \/ exists e, ev = EvStderr e.
Proof.
  intros E fields Hload sid.
  destruct (prepare_entry_object E fields initial_state)
    as (prompt & evs & Hevs & Hget & Hprep).
  fold sid in Hget, Hprep.
  exists prompt, evs. split; [assumption|]. split.
  { destruct (truthy sid); [now rewrite Hget | assumption]. }
  intros label dir Hsan Hcwd Hmk name k path text.
  rewrite Hsan, Hcwd, Hmk in Hprep. cbv zeta in Hprep.
  unfold run_hook, main. rewrite Hload. unfold bind. rewrite Hprep.
  cbn [fst snd]. rewrite append_entry_spec. cbn [trace ticks initial_state].
  cbn [app].
  fold name k path text.
  destruct (open_error E _) as [e|];
    [|destruct (write_error E _ _) as [e|]];
    cbn [fst snd trace];
    eexists; (split; [reflexivity|]);
    intros ev Hin; simpl in Hin;
    repeat (destruct Hin as [<-|Hin]; [eauto|]); contradiction.
Qed.

End UsageRecorderRuns.

(** X1.  With a session identifier in the payload, the one file the run
    opens for appending is [session_<id>_<label>.jsonl] in the output
    directory, where [<label>] is the sanitized first prompt of the
    session and [<id>] is the identifier as it came, not sanitized. *)
Theorem session_file_is_named_after_label :
  forall (rt : PyRuntime) E fields prompt label dir,
    json_loads (stdin_text E) = Ok (JObj fields) ->
    truthy (field_or_null fields (lit "session_id")) = true ->
    snd (get_session_prompt E (field_or_null fields (lit "session_id"))
           initial_state) = Done prompt ->
    sanitize_filename prompt = Ok label ->
    cwd E = Ok dir ->
    makedirs_error E (analytics_dir_of dir) = None ->
    In (EvOpenAppend
          (path_join (analytics_dir_of dir)
             (session_file_name (field_or_null fields (lit "session_id"))
                label)))
       (fst (run_hook E)) /\
    forall p, In (EvOpenAppend p) (fst (run_hook E)) ->
      p = path_join (analytics_dir_of dir)
            (session_file_name (field_or_null fields (lit "session_id"))
               label).
Proof.
  intros rt E fields prompt label dir Hload Hsid Hget Hsan Hcwd Hmk.
  destruct (object_run_events E fields Hload)
    as (prompt' & evs & Hevs & Hp & Hrun).
  rewrite Hsid in Hp, Hrun.
  assert (prompt' = prompt) by congruence. subst prompt'.
  destruct (Hrun label dir Hsan Hcwd Hmk) as (tail & -> & Htail).
  split.
  - apply in_or_app. right. now left.
  - intros p Hin.
    apply (in_run_events E evs _ _ _ Hevs) in Hin.
    destruct Hin as [Hin | Hin]; [now inversion Hin|].
    destruct (Htail _ Hin) as [H | (e & H)]; discriminate.
Qed.

Lemma session_file_is_named_after_label_witness :
  In (EvOpenAppend
        (path_join (analytics_dir_of (lit "/work"))
           (@session_file_name sample_runtime (JStr (lit "abc123"))
              (lit "Fix_the_bug"))))
     (fst (@run_hook sample_runtime
             (sample_env payload_session
                (HistLines [line_later; line_fix_bug])))) /\
  forall p,
    In (EvOpenAppend p)
       (fst (@run_hook sample_runtime
               (sample_env payload_session
                  (HistLines [line_later; line_fix_bug])))) ->
    p = path_join (analytics_dir_of (lit "/work"))
          (@session_file_name sample_runtime (JStr (lit "abc123"))
             (lit "Fix_the_bug")).
Proof.
  apply (session_file_is_named_after_label sample_runtime
           (sample_env payload_session (HistLines [line_later; line_fix_bug]))
           [ (lit "session_id", JStr (lit "abc123"));
             (lit "tool_name", JStr (lit "Bash"));
             (lit "tool_input", JObj [ (lit "cmd", JStr (lit "ls")) ]);
             (lit "tool_response", JObj [ (lit "ok", JBool true) ]) ]
           (JStr (lit "Fix the bug!!"))).
  all: vm_compute; reflexivity.
Defined.

(** X2.  When the first prompt found for the session is a value that is
    neither text nor false in a test (a number other than 0, say), line
    63 raises [TypeError]: the exception leaves [main] before the
    directory is made and before anything is written. *)
Theorem label_that_is_no_text_raises :
  forall (rt : PyRuntime) E fields prompt,
    json_loads (stdin_text E) = Ok (JObj fields) ->
    truthy (field_or_null fields (lit "session_id")) = true ->
    snd (get_session_prompt E (field_or_null fields (lit "session_id"))
           initial_state) = Done prompt ->
    truthy prompt = true ->
    (forall s, prompt <> JStr s) ->
    snd (main E initial_state) = Raised TypeError /\
    forallb (is_history_event E) (trace (fst (main E initial_state))) = true.
Proof.
  intros rt E fields prompt Hload Hsid Hget Htrue Hnotext.
  destruct (prepare_entry_object E fields initial_state)
    as (prompt' & evs & Hevs & Hp & Hprep).
  cbv zeta in Hp, Hprep. rewrite Hsid in Hp. rewrite Hp in Hget.
  simpl in Hget. assert (prompt' = prompt) by congruence. subst prompt'.
  assert (Hsan : sanitize_filename prompt = Raise TypeError).
  { unfold sanitize_filename. rewrite Htrue. cbn [negb].
    destruct prompt; try reflexivity. now elim (Hnotext s). }
  rewrite Hsan in Hprep.
  unfold main. rewrite Hload. unfold bind. rewrite Hprep.
  split; [reflexivity | exact Hevs].
Qed.

Lemma label_that_is_no_text_raises_witness :
  snd (@main extended_runtime
         (sample_env payload_session
            (HistLines [line_fix_bug; line_number_display]))
         initial_state) = Raised TypeError /\
  forallb (is_history_event
             (sample_env payload_session
                (HistLines [line_fix_bug; line_number_display])))
    (trace (fst (@main extended_runtime
                   (sample_env payload_session
                      (HistLines [line_fix_bug; line_number_display]))
                   initial_state))) = true.
Proof.
  apply (label_that_is_no_text_raises extended_runtime
           (sample_env payload_session
              (HistLines [line_fix_bug; line_number_display]))
           [ (lit "session_id", JStr (lit "abc123"));
             (lit "tool_name", JStr (lit "Bash"));
             (lit "tool_input", JObj [ (lit "cmd", JStr (lit "ls")) ]);
             (lit "tool_response", JObj [ (lit "ok", JBool true) ]) ]
           (JInt 42)).
  - vm_compute. reflexivity.
  - vm_compute. reflexivity.
  - vm_compute. reflexivity.
  - reflexivity.
  - intros s. discriminate.
Defined.

(** X3.  When the lookup yields no label, or one that is false in a
    test (the history file is missing or unreadable, no record matches,
    the display text is empty), the run goes on and appends to
    [session_<id>_unknown_session.jsonl]. *)
Theorem missing_label_gives_unknown_session :
  forall (rt : PyRuntime) E fields prompt dir,
    json_loads (stdin_text E) = Ok (JObj fields) ->
    truthy (field_or_null fields (lit "session_id")) = true ->
    snd (get_session_prompt E (field_or_null fields (lit "session_id"))
           initial_state) = Done prompt ->
    truthy prompt = false ->
    cwd E = Ok dir ->
    makedirs_error E (analytics_dir_of dir) = None ->
    In (EvOpenAppend
          (path_join (analytics_dir_of dir)
             (session_file_name (field_or_null fields (lit "session_id"))
                (lit "unknown_session"))))
       (fst (run_hook E)).
Proof.
  intros rt E fields prompt dir Hload Hsid Hget Hfalse Hcwd Hmk.
  destruct (object_run_events E fields Hload)
    as (prompt' & evs & Hevs & Hp & Hrun).
  rewrite Hsid in Hp, Hrun.
  assert (prompt' = prompt) by congruence. subst prompt'.
  assert (Hsan : sanitize_filename prompt = Ok (lit "unknown_session")).
  { unfold sanitize_filename. now rewrite Hfalse. }
  destruct (Hrun _ dir Hsan Hcwd Hmk) as (tail & -> & _).
  apply in_or_app. right. now left.
Qed.

Lemma missing_label_gives_unknown_session_witness :
  In (EvOpenAppend
        (path_join (analytics_dir_of (lit "/work"))
           (@session_file_name sample_runtime (JStr (lit "abc123"))
              (lit "unknown_session"))))
     (fst (@run_hook sample_runtime
             (sample_env payload_session (HistUnreadable OSError)))).
Proof.
  apply (missing_label_gives_unknown_session sample_runtime
           (sample_env payload_session (HistUnreadable OSError))
           [ (lit "session_id", JStr (lit "abc123"));
             (lit "tool_name", JStr (lit "Bash"));
             (lit "tool_input", JObj [ (lit "cmd", JStr (lit "ls")) ]);
             (lit "tool_response", JObj [ (lit "ok", JBool true) ]) ]
           JNull).
  all: vm_compute; reflexivity.
Defined.

(** X12.  The line written for a payload object holds the five items
    [timestamp], [tool], [input], [result] and [session_id], in this
    order: the ISO form of the clock reading taken on line 81 and the
    payload's [tool_name], [tool_input], [tool_response] and
    [session_id], each [None] when the payload lacks it; and the line
    ends with a newline. *)
Theorem written_line_is_the_log_entry :
  forall (rt : PyRuntime) E fields p text,
    json_loads (stdin_text E) = Ok (JObj fields) ->
    In (EvWrite p text) (fst (run_hook E)) ->
    text =
      json_dumps
        (log_entry_of fields
           (clock E (if truthy (field_or_null fields (lit "session_id"))
                     then 0 else 1)))
      ++ [newline].
Proof.
  intros rt E fields p text Hload Hin.
  destruct (prepare_entry_object E fields initial_state)
    as (prompt & evs & Hevs & _ & Hprep).
  cbv zeta in Hprep. revert Hin.
  unfold run_hook, main. rewrite Hload. unfold bind. rewrite Hprep.
  assert (Hhist : forall tail,
            In (EvWrite p text) (evs ++ tail) -> In (EvWrite p text) tail).
  { intros tail H. apply in_app_or in H as [H|H]; [|assumption].
    now apply (history_events_not_output E evs Hevs) in H. }
  cbn [initial_state trace ticks app].
  destruct (sanitize_filename prompt) as [label|e]; cbn [fst snd trace].
  2:{ intros H. apply in_app_or in H as [H|[H|[]]]; [|discriminate].
      rewrite <- (app_nil_r evs) in H. now apply Hhist in H. }
  destruct (cwd E) as [dir|e]; cbn [fst snd trace].
  2:{ intros H. apply in_app_or in H as [H|[H|[]]]; [|discriminate].
      rewrite <- (app_nil_r evs) in H. now apply Hhist in H. }
  destruct (makedirs_error E (analytics_dir_of dir)) as [e|];
    cbn [fst snd trace].
  { intros H. apply in_app_or in H as [H|[H|[]]]; [|discriminate].
    apply Hhist in H. destruct H as [H|[]]. discriminate. }
  rewrite append_entry_spec. cbn [trace ticks].
  destruct (open_error E _) as [e|];
    [|destruct (write_error E _ _) as [e|]];
    cbn [fst snd trace]; intros H;
    apply in_app_or in H as [H|H];
    try (apply Hhist in H; destruct H as [H|[]]; discriminate);
    simpl in H;
    repeat (destruct H as [H|H]; try discriminate; try contradiction);
    now inversion H.
Qed.

Lemma written_line_is_the_log_entry_witness :
  jtext "{'timestamp': '2024-01-02T03:04:05', 'tool': 'Bash', 'input': {'cmd': 'ls'}, 'result': null, 'session_id': null}"
    ++ [newline]
  = @json_dumps sample_runtime
      (log_entry_of
         [ (lit "tool_name", JStr (lit "Bash"));
           (lit "tool_input", JObj [ (lit "cmd", JStr (lit "ls")) ]) ]
         (clock (sample_env payload_no_session HistMissing) 1))
    ++ [newline].
Proof.
  apply (written_line_is_the_log_entry sample_runtime
           (sample_env payload_no_session HistMissing)
           [ (lit "tool_name", JStr (lit "Bash"));
             (lit "tool_input", JObj [ (lit "cmd", JStr (lit "ls")) ]) ]
           (lit "/work/.claude/analytics/tool_usage_history/tool_usage_20240102_030405.jsonl")).
  - vm_compute. reflexivity.
  - vm_compute. right; right; now left.
Defined.

Section UsageRecorderPaths.
Context {rt : PyRuntime}.

(** The output directory is never empty and never ends with a slash,
    whatever the working directory is. *)
Lemma analytics_dir_of_end : forall dir,
  analytics_dir_of dir <> [] /\
  ends_with_slash (analytics_dir_of dir) = false.
Proof.
  intros dir. unfold analytics_dir_of.
  set (a := path_join (path_join dir (lit ".claude")) (lit "analytics")).
  assert (H : exists pre,
            path_join a (lit "tool_usage_history")
            = pre ++ lit "tool_usage_history").
  { unfold path_join. cbn [starts_with_slash lit list_ascii_of_string map].
    cbn [N_of_ascii N.eqb slash]. 
    destruct (Nat.eqb (length a) 0 || ends_with_slash a).
    - now exists a.
    - exists (a ++ [slash]). now rewrite <- app_assoc. }
  destruct H as (pre & ->). split.
  - destruct pre; discriminate.
  - now rewrite ends_with_slash_app by discriminate.
Qed.

(** The names of lines 65 and 68 do not begin with a slash, so line 77
    puts them behind the directory. *)
Lemma output_path_of_name : forall E dir name,
  output_name E name ->
  path_join (analytics_dir_of dir) name
  = analytics_dir_of dir ++ slash :: name.
Proof.
  intros E dir name Hname.
  destruct (analytics_dir_of_end dir) as [Hne Hend].
  apply path_join_plain; auto.
  destruct Hname as [(sid & label & ->) | ->]; reflexivity.
Qed.

End UsageRecorderPaths.

(** X13.  Whatever the payload and the state of the disk, a run of
    [main] leaves a trace of one shape: looks at the history file, then
    possibly the creation of the output directory, then possibly one
    file opened, whose path is that directory, a slash and a name built
    on line 65 or 68, one line written to that very file and the
    diagnostic of a failed append.  It never opens a second file, never
    writes twice, never opens a file before the directory is made, and
    never lets the name replace the directory. *)
Theorem run_leaves_one_shape_of_trace :
  forall (rt : PyRuntime) E,
    exists evs,
      forallb (is_history_event E) evs = true /\
      (trace (fst (main E initial_state)) = evs \/
       exists dir,
         cwd E = Ok dir /\
         run_trace E evs (analytics_dir_of dir)
           (trace (fst (main E initial_state)))).
Proof.
  intros rt E. unfold main.
  destruct (json_loads (stdin_text E)) as [v|e].
  2:{ exists []. split; [reflexivity|]. left. now destruct e. }
  destruct v as [| | | | | |fields];
    try (exists []; split; [reflexivity|]; left; reflexivity).
  destruct (prepare_entry_object E fields initial_state)
    as (prompt & evs & Hevs & _ & Hprep).
  cbv zeta in Hprep. unfold bind. rewrite Hprep. clear Hprep.
  exists evs. split; [assumption|].
  destruct (sanitize_filename prompt) as [label|e]; [|now left].
  destruct (cwd E) as [dir|e]; [|now left].
  right. exists dir. split; [reflexivity|].
  destruct (makedirs_error E (analytics_dir_of dir)) as [e|] eqn:Hmk.
  { apply TraceDirectory. }
  cbn [fst snd].
  set (name := if truthy (field_or_null fields (lit "session_id"))
               then session_file_name
                      (field_or_null fields (lit "session_id")) label
               else fallback_file_name (clock E (ticks initial_state))).
  assert (Hname : output_name E name).
  { unfold name.
    destruct (truthy (field_or_null fields (lit "session_id")));
      [left; eauto | now right]. }
  rewrite (output_path_of_name E dir name Hname).
  rewrite append_entry_spec. cbn [trace ticks initial_state app].
  destruct (open_error E _) as [e|] eqn:Hop;
    [|destruct (write_error E _ _) as [e|] eqn:Hwr];
    cbn [fst snd trace]; rewrite <- app_assoc; cbn [app].
  - now apply TraceOpenFailed.
  - now apply TraceWriteFailed.
  - now apply TraceWritten.
Qed.

(** X14.  For a working directory that is not empty and has no slash at
    its end, the path of the output file is the working directory, the
    three directory names [.claude/analytics/tool_usage_history] and the
    file name, joined by single slashes: neither file name, beginning as
    it does with [session_] or [tool_usage_], makes [os.path.join] drop
    the directory. *)
Theorem output_path_is_directory_and_name :
  forall (rt : PyRuntime) dir session_id label now,
    dir <> [] -> ends_with_slash dir = false ->
    path_join (analytics_dir_of dir) (session_file_name session_id label)
    = dir ++ lit "/.claude/analytics/tool_usage_history/"
          ++ session_file_name session_id label /\
    path_join (analytics_dir_of dir) (fallback_file_name now)
    = dir ++ lit "/.claude/analytics/tool_usage_history/"
          ++ fallback_file_name now.
Proof.
  intros rt dir sid label now Hd Hs.
  rewrite (analytics_dir_of_plain dir Hd Hs).
  assert (Hjoin : forall name, starts_with_slash name = false ->
            path_join (dir ++ lit "/.claude/analytics/tool_usage_history") name
            = dir ++ lit "/.claude/analytics/tool_usage_history/" ++ name).
  { intros name Hn. rewrite path_join_plain.
    - rewrite <- app_assoc.
      change (lit "/.claude/analytics/tool_usage_history/")
        with (lit "/.claude/analytics/tool_usage_history" ++ [slash]).
      now rewrite <- app_assoc.
    - destruct dir; [congruence | discriminate].
    - now rewrite ends_with_slash_app by discriminate.
    - assumption. }
  split; apply Hjoin; reflexivity.
Qed.

Lemma output_path_is_directory_and_name_witness :
  path_join (analytics_dir_of (lit "/work"))
    (@session_file_name sample_runtime (JStr (lit "abc123")) (lit "Fix_the_bug"))
  = lit "/work" ++ lit "/.claude/analytics/tool_usage_history/"
      ++ @session_file_name sample_runtime (JStr (lit "abc123"))
           (lit "Fix_the_bug") /\
  path_join (analytics_dir_of (lit "/work")) (fallback_file_name sample_time)
  = lit "/work" ++ lit "/.claude/analytics/tool_usage_history/"
      ++ fallback_file_name sample_time.
Proof.
  apply (output_path_is_directory_and_name sample_runtime).
  - discriminate.
  - reflexivity.
Defined.

(** X15.  A [session_id] that is there but false in a test (the empty
    text, [null], 0, [false], an empty list or dict) is treated like a
    missing one: the history file is never looked at, and the only file
    the run may open is the one named after the clock reading of
    line 68. *)
Theorem false_session_id_counts_as_missing :
  forall (rt : PyRuntime) E fields,
    json_loads (stdin_text E) = Ok (JObj fields) ->
    truthy (field_or_null fields (lit "session_id")) = false ->
    forallb (fun ev => negb (is_history_event E ev)) (fst (run_hook E))
      = true /\
    (forall p, In (EvOpenAppend p) (fst (run_hook E)) ->
       exists dir, cwd E = Ok dir /\
         p = path_join (analytics_dir_of dir)
               (fallback_file_name (clock E 0))) /\
    (forall dir, cwd E = Ok dir ->
       makedirs_error E (analytics_dir_of dir) = None ->
       In (EvOpenAppend (path_join (analytics_dir_of dir)
                           (fallback_file_name (clock E 0))))
          (fst (run_hook E))).
Proof.
  intros rt E fields Hload Hsid.
  destruct (prepare_entry_object E fields initial_state)
    as (prompt & evs & _ & Hp & Hprep).
  cbv zeta in Hp, Hprep. rewrite Hsid in Hp, Hprep.
  destruct Hp as [-> ->].
  cbn [sanitize_filename truthy negb initial_state ticks trace app] in Hprep.
  unfold run_hook, main. rewrite Hload. unfold bind. rewrite Hprep.
  destruct (cwd E) as [dir|e]; cbn [fst snd trace].
  2:{ repeat split; try reflexivity.
      - intros p [H|[]]; discriminate.
      - intros dir H; discriminate. }
  destruct (makedirs_error E (analytics_dir_of dir)) as [e|] eqn:Hmk;
    cbn [fst snd trace].
  { repeat split; try reflexivity.
    - intros p [H|[H|[]]]; discriminate.
    - intros dir' H1 H2. inversion H1; subst. congruence. }
  rewrite append_entry_spec. cbn [trace ticks].
  destruct (open_error E _) as [e|];
    [|destruct (write_error E _ _) as [e|]]; cbn [fst snd trace app];
    (repeat split; try reflexivity;
     [ intros p Hin;
       repeat (destruct Hin as [Hin|Hin]; try discriminate;
               try contradiction);
       inversion Hin; subst; exists dir; auto
     | intros dir' H1 H2; inversion H1; subst; right; now left ]).
Qed.

Lemma false_session_id_counts_as_missing_witness :
  forallb (fun ev => negb (is_history_event
                             (sample_env payload_empty_session
                                (HistLines [line_fix_bug])) ev))
    (fst (@run_hook extended_runtime
            (sample_env payload_empty_session (HistLines [line_fix_bug]))))
    = true.
Proof.
  apply (false_session_id_counts_as_missing extended_runtime
           (sample_env payload_empty_session (HistLines [line_fix_bug]))
           [ (lit "session_id", JStr []);
             (lit "tool_name", JStr (lit "Bash")) ]).
  - vm_compute. reflexivity.
  - reflexivity.
Defined.

(* ----------------------------------------------------------------- *)
(** ** Two edges of the selection and of the sanitizer *)

(** X16.  A record is selected only when its timestamp is strictly below
    the initial running minimum [float('inf')].  So when every matching
    record of the file carries [Infinity] or [NaN] for a timestamp, and
    the other lines are unparsable or objects, the answer is [None]
    although records of the session are there. *)
Theorem timestamps_not_below_infinity_are_never_selected :
  forall (rt : PyRuntime) E session_id st lines,
    history E = HistLines lines ->
    (forall line, In line lines ->
       json_loads line = Raise JSONDecodeError \/
       exists fields,
         json_loads line = Ok (JObj fields) /\
         (record_fields session_id line = Some fields ->
          exists t, as_number (timestamp_of fields) = Some t /\
                    below_infinity t = false)) ->
    snd (get_session_prompt E session_id st) = Done JNull.
Proof.
  intros rt E sid st lines Hh Hall.
  rewrite (get_session_prompt_lines E sid st lines Hh).
  assert (Hscan : scan_lines sid scan_init lines = Ok scan_init).
  { clear Hh. induction lines as [|l lines IH]; [reflexivity|]. simpl.
    assert (Hl : scan_line sid scan_init l = Ok scan_init).
    { destruct (Hall l (or_introl eq_refl)) as [Hdec | (fields & Hl & Hrec)].
      - now apply scan_line_decode_error.
      - destruct (record_fields sid l) as [fs|] eqn:Hr.
        + apply record_fields_loads in Hr as Hlf. destruct Hlf as (Hlf & _).
          assert (fs = fields) by congruence. subst fs.
          destruct (Hrec eq_refl) as (t & Ht & Hb).
          rewrite (scan_line_record sid scan_init l fields t PosInf Hr Ht
                     eq_refl).
          unfold below_infinity in Hb. now rewrite Hb.
        + now apply (scan_line_other sid scan_init l fields). }
    rewrite Hl. simpl. apply IH. intros line Hin. apply Hall. now right. }
  now rewrite Hscan.
Qed.

Lemma timestamps_not_below_infinity_are_never_selected_witness :
  snd (@get_session_prompt extended_runtime
         (sample_env payload_session
            (HistLines [line_infinite_timestamp; line_other_session]))
         (JStr (lit "abc123")) initial_state) = Done JNull.
Proof.
  apply (timestamps_not_below_infinity_are_never_selected extended_runtime
           (sample_env payload_session
              (HistLines [line_infinite_timestamp; line_other_session]))
           (JStr (lit "abc123")) initial_state
           [line_infinite_timestamp; line_other_session]).
  - reflexivity.
  - intros line H. sample_line_cases H; right; eexists;
      (split; [vm_compute; reflexivity|]); vm_compute; intros Hr;
      try discriminate.
    eexists. split; reflexivity.
Defined.

Section SanitizerEdges.
Context {rt : PyRuntime}.

Lemma collapse_runs_underscores : forall text in_run,
  Forall (fun c => c = underscore \/ is_separator c = true) text ->
  Forall (fun c => c = underscore) (collapse_runs in_run text).
Proof.
  induction text as [|c rest IH]; intros in_run H; simpl; [constructor|].
  inversion H as [|? ? Hc Hrest]; subst.
  destruct (is_separator c) eqn:Hsep.
  - destruct in_run; [now apply IH|]. constructor; [reflexivity|now apply IH].
  - constructor; [|now apply IH]. destruct Hc; congruence.
Qed.

Lemma lstrip_underscores_all : forall text,
  Forall (fun c => c = underscore) text -> lstrip_underscores text = [].
Proof.
  induction text as [|c rest IH]; intros H; simpl; [reflexivity|].
  inversion H; subst. simpl. now apply IH.
Qed.

End SanitizerEdges.

(** X17.  The placeholder [unknown_session] stands for a label that is
    false in a test only.  A text that is not empty but holds no letter
    and no digit (each character an underscore, a hyphen, white space or
    a character that is not a word character) is sanitized to the empty
    text. *)
Theorem label_without_letters_becomes_empty :
  forall (rt : PyRuntime) (c : codepoint) (s : pystr),
    Forall (fun d => d = underscore \/ is_separator d = true
                     \/ is_word d = false) (c :: s) ->
    sanitize_filename (JStr (c :: s)) = Ok [].
Proof.
  intros rt c s H. unfold sanitize_filename. rewrite truthy_text.
  cbn [negb]. cbv zeta.
  assert (Hkept : Forall (fun d => d = underscore \/ is_separator d = true)
                    (remove_special (c :: s))).
  { apply Forall_forall. intros d Hd. unfold remove_special in Hd.
    apply filter_In in Hd as [Hin Hk].
    rewrite Forall_forall in H. destruct (H d Hin) as [Hu | [Hs | Hw]]; auto.
    right. rewrite Hw in Hk. simpl in Hk. unfold is_separator.
    now rewrite orb_comm. }
  pose proof (collapse_runs_underscores _ false Hkept) as Hall.
  unfold strip_underscores.
  rewrite (lstrip_underscores_all _ Hall). reflexivity.
Qed.

Lemma label_without_letters_becomes_empty_witness :
  @sanitize_filename sample_runtime (JStr (lit "?! -_")) = Ok [].
Proof.
  apply (label_without_letters_becomes_empty sample_runtime).
  repeat (apply Forall_cons || apply Forall_nil);
    first [ left; reflexivity
          | right; left; reflexivity
          | right; right; reflexivity ].
Defined.
